(** * Divvy demand map: a shallow embedding of [divvy_demand_map_public.py]

    The dashboard script loads a table of bike-share stations (from the
    Snowflake gold table, falling back to the GBFS feed), filters it by a
    minimum capacity, encodes every station as a colour and a radius, and
    shows three counts.

    Conventions of the embedding.
    - A [DataFrame] is the ordered list of its rows; [DataFrame.empty] is
      the test for the empty list.
    - Integer columns ([capacity], [num_bikes_available], ...) are [Z].
      In pandas they are int64 columns, whose arithmetic wraps around;
      the arithmetic of the embedding does not, and a theorem whose
      truth depends on it carries the hypothesis [no_wrap].
    - A float cell is modelled in exact arithmetic: a rational number, or
      one of the three IEEE special values that pandas produces when it
      divides by zero.  Rounding to binary64 and the overflow of a
      product are not modelled: a theorem on the colour whose truth
      depends on them carries the hypothesis [no_overflow] and speaks of
      a truncation up to one rounding error ([rounded_truncation]).
    - Python exceptions, [st.stop()] and the messages that the script
      sends to the logger and to Streamlit are modelled by a small error
      and writer monad [M]. *)

From Stdlib Require Import ZArith QArith Qreduction Qabs List String Bool Lia.
Import ListNotations.
Local Open Scope Z_scope.

(** ** Float cells *)

Inductive float64 : Type :=
| Finite (q : Q)
| PosInf
| NegInf
| NaN.

(** Python exceptions that the modelled code can meet. *)
Inductive exn : Type :=
| KeyError (key : string)
| ValueError (msg : string)
| OverflowError (msg : string)
| Exception (msg : string).

(** [int64 / int64] on two pandas columns, cell by cell: true division
    into float64; a zero divisor gives [inf], [-inf] or [NaN] and raises
    nothing.  The quotient is kept exact: its rounding to binary64 is
    left out. *)
Definition truediv (x y : Z) : float64 :=
  if y =? 0 then
    if x =? 0 then NaN else if 0 <? x then PosInf else NegInf
  else Finite (Qred (inject_Z x / inject_Z y)).

(** [k * x] for a Python int [k] and a float [x], in exact arithmetic:
    the rounding of the product to binary64 and its overflow to [inf]
    are left out (see [no_overflow] and [rounded_truncation] below). *)
Definition int_mul (k : Z) (x : float64) : float64 :=
  match x with
  | Finite q => Finite (Qred (inject_Z k * q))
  | PosInf => if k =? 0 then NaN else if 0 <? k then PosInf else NegInf
  | NegInf => if k =? 0 then NaN else if 0 <? k then NegInf else PosInf
  | NaN => NaN
  end.


(** Python's [int(x)] on a float: truncation toward zero; [int(nan)]
    raises [ValueError] and [int(inf)] raises [OverflowError]. *)
Definition int (x : float64) : exn + Z :=
  match x with
  | Finite q => inr (Z.quot (Qnum q) (Zpos (Qden q)))
  | PosInf | NegInf => inl (OverflowError "cannot convert float infinity to integer")
  | NaN => inl (ValueError "cannot convert float NaN to integer")
  end.


Definition is_nan (x : float64) : bool :=
  match x with NaN => true | _ => false end.

Definition is_finite (x : float64) : bool :=
  match x with Finite _ => true | _ => false end.

(** ** Rows and tables *)

(** A row of [station_information.json]. *)
Record info_row : Type := mk_info {
  info_station_id : string;
  info_name : string;
  info_lat : Q;
  info_lon : Q;
  info_capacity : Z
}.

(** A row of [station_status.json]. *)
Record status_row : Type := mk_status {
  status_station_id : string;
  status_num_bikes_available : Z;
  status_num_docks_available : Z
}.

(** A row of [pd.merge(info, status, on='station_id')]: the raw columns. *)
Record merged_row : Type := mk_merged {
  m_station_id : string;
  m_name : string;
  m_lat : Q;
  m_lon : Q;
  m_capacity : Z;
  m_num_bikes_available : Z;
  m_num_docks_available : Z
}.

(** A row of the station table that the dashboard works on: the twelve
    columns of the gold-table query, which are also the columns that
    [load_from_api] leaves in its frame. *)
Record station : Type := mk_station {
  station_id : string;
  name : string;
  lat : Q;
  lon : Q;
  capacity : Z;
  num_bikes_available : Z;
  num_docks_available : Z;
  out_of_service_bikes : Z;
  bike_utilization : float64;
  dock_utilization : float64;
  out_of_service_ratio : float64;
  last_reported : Z
}.

Definition DataFrame : Type := list station.

(** [df.empty] *)
Definition empty (df : DataFrame) : bool :=
  match df with [] => true | _ :: _ => false end.

(** ** Metric derivation (lines 43-49 of the script) *)

(** The four column assignments of [load_from_api], then the time stamp,
    on one merged row, in exact integer arithmetic (see [no_wrap]
    below for the int64 range). *)
Definition calculate_demand_metrics (now : Z) (m : merged_row) : station :=
  let bike_utilization := truediv (m_num_bikes_available m) (m_capacity m) in
  let dock_utilization := truediv (m_num_docks_available m) (m_capacity m) in
  let out_of_service_bikes :=
    m_capacity m - (m_num_bikes_available m + m_num_docks_available m) in
  let out_of_service_ratio := truediv out_of_service_bikes (m_capacity m) in
  {| station_id := m_station_id m;
     name := m_name m;
     lat := m_lat m;
     lon := m_lon m;
     capacity := m_capacity m;
     num_bikes_available := m_num_bikes_available m;
     num_docks_available := m_num_docks_available m;
     out_of_service_bikes := out_of_service_bikes;
     bike_utilization := bike_utilization;
     dock_utilization := dock_utilization;
     out_of_service_ratio := out_of_service_ratio;
     last_reported := now |}.

(** The raw columns of an enriched row: what the column assignments read
    when they are run again on a frame that already has the derived
    columns. *)
Definition raw_columns (r : station) : merged_row :=
  {| m_station_id := station_id r;
     m_name := name r;
     m_lat := lat r;
     m_lon := lon r;
     m_capacity := capacity r;
     m_num_bikes_available := num_bikes_available r;
     m_num_docks_available := num_docks_available r |}.

(** Running the column assignments on an enriched frame overwrites the
    derived columns of every row. *)
Definition rederive (now : Z) (df : DataFrame) : DataFrame :=
  map (fun r => calculate_demand_metrics now (raw_columns r)) df.

(** The derived columns of a row. *)
Definition derived_columns (r : station) : Z * float64 * float64 * float64 :=
  (out_of_service_bikes r, bike_utilization r, dock_utilization r,
   out_of_service_ratio r).

(** ** Visual encoding *)

(** [get_station_color(row)] *)
Definition get_station_color (row : station) : exn + list Z :=
  let total_bikes := num_bikes_available row + out_of_service_bikes row in
  if total_bikes =? 0 then inr [200; 200; 200; 200]
  else
    let utilization := bike_utilization row in
    match int (int_mul 255 utilization) with
    | inl e => inl e
    | inr base_intensity =>
      let broken_ratio := out_of_service_ratio row in
      match int (int_mul 255 broken_ratio) with
      | inl e => inl e
      | inr red_intensity =>
        inr [Z.min 255 (base_intensity + red_intensity);
             base_intensity;
             base_intensity;
             200]
      end
    end.

(** The upper end of a capacity range: a number, or [float('inf')]. *)
Inductive upper : Type :=
| Below (z : Z)
| Unbounded.

Definition lt_upper (c : Z) (u : upper) : bool :=
  match u with Below z => c <? z | Unbounded => true end.

Definition size_groups : list (Z * upper * Z) :=
  [ (0, Below 10, 3);
    (10, Below 20, 8);
    (20, Below 30, 15);
    (30, Below 50, 20);
    (50, Below 75, 30);
    (75, Below 100, 40);
    (100, Unbounded, 50) ].

(** The [for] loop of [get_station_radius] over a list of groups: the
    first group whose range holds the capacity decides. *)
Fixpoint find_group (groups : list (Z * upper * Z)) (capacity : Z) : option Z :=
  match groups with
  | [] => None
  | (min_cap, max_cap, radius) :: rest =>
    if (min_cap <=? capacity) && lt_upper capacity max_cap then Some radius
    else find_group rest capacity
  end.

(** [get_station_radius(capacity)] *)
Definition get_station_radius (capacity : Z) : Z :=
  match find_group size_groups capacity with
  | Some radius => radius
  | None => 3
  end.

(** ** Effects: exceptions, [st.stop()] and the messages sent out *)

(** What the script sends to the logger, to the outside services and to
    Streamlit, in the order in which it happens. *)
Inductive event : Type :=
| Logger_info (msg : string)
| Logger_warning (msg : string)
| Logger_error (msg : string) (e : exn)
| Snowflake_connect
| Pd_read_sql
| Conn_close
| Requests_get (url : string)
| St_error (msg : string)
| St_warning (msg : string)
| St_markdown_showing (shown : nat) (min_capacity : Z)
| St_pydeck_chart (data : list (station * list Z * Z))
| St_metric (label : string) (value : nat)
| St_sidebar_last_updated (last_updated : Z)
| St_dataframe (rows : DataFrame).

(** How a piece of the script ends: with a value, with a Python
    exception, or with [st.stop()], which ends the script run and which
    no [except Exception] catches. *)
Inductive outcome (A : Type) : Type :=
| Ret (a : A)
| Raise (e : exn)
| Halt.

Arguments Ret {A} a.
Arguments Raise {A} e.
Arguments Halt {A}.

Definition M (A : Type) : Type := list event * outcome A.

Definition ret {A} (a : A) : M A := ([], Ret a).

Definition bind {A B} (m : M A) (k : A -> M B) : M B :=
  match m with
  | (t, Ret a) => let (t', o) := k a in (t ++ t', o)
  | (t, Raise e) => (t, Raise e)
  | (t, Halt) => (t, Halt)
  end.

Definition emit (e : event) : M unit := ([e], Ret tt).

Definition raise {A} (e : exn) : M A := ([], Raise e).

(** [st.stop()] *)
Definition st_stop : M unit := ([], Halt).

(** [try: body  except Exception as e: handler(e)] *)
Definition try_except {A} (body : M A) (handler : exn -> M A) : M A :=
  match body with
  | (t, Raise e) => let (t', o) := handler e in (t ++ t', o)
  | other => other
  end.

(** A call to an outside service: the call is recorded, then it returns
    or raises what the service answers. *)
Definition external {A} (call : event) (answer : exn + A) : M A :=
  match answer with
  | inl e => ([call], Raise e)
  | inr a => ([call], Ret a)
  end.

(** A pure computation that may raise. *)
Definition lift {A} (r : exn + A) : M A :=
  match r with
  | inl e => raise e
  | inr a => ret a
  end.

Definition trace {A} (m : M A) : list event := fst m.
Definition result {A} (m : M A) : outcome A := snd m.

Declare Scope py_scope.
Delimit Scope py_scope with py.
Notation "x <- c1 ;; c2" := (bind c1 (fun x => c2))
  (at level 61, c1 at next level, right associativity) : py_scope.
Notation "c1 ;; c2" := (bind c1 (fun _ => c2))
  (at level 61, right associativity) : py_scope.
Local Open Scope py_scope.

(** ** The outside world *)

(** What the outside services answer during one run of the script: a
    value, or the exception that the call raises. *)
Record world : Type := mk_world {
  (** [snowflake.connector.connect(...)], with the look-ups in
      [st.secrets] that build its arguments *)
  snowflake_connect : exn + unit;
  (** [pd.read_sql(query, conn)] on the gold table *)
  pd_read_sql : exn + DataFrame;
  (** [conn.close()] *)
  conn_close : exn + unit;
  (** [requests.get(info_url).json()['data']['stations']] *)
  station_information : exn + list info_row;
  (** [requests.get(status_url).json()['data']['stations']] *)
  station_status : exn + list status_row;
  (** [pd.Timestamp.now(tz='UTC')] *)
  timestamp_now : Z
}.

Definition info_url : string :=
  "https://gbfs.divvybikes.com/gbfs/en/station_information.json".
Definition status_url : string :=
  "https://gbfs.divvybikes.com/gbfs/en/station_status.json".

(** ** The live-feed adapter *)

Definition join (i : info_row) (s : status_row) : merged_row :=
  {| m_station_id := info_station_id i;
     m_name := info_name i;
     m_lat := info_lat i;
     m_lon := info_lon i;
     m_capacity := info_capacity i;
     m_num_bikes_available := status_num_bikes_available s;
     m_num_docks_available := status_num_docks_available s |}.

(** The rows of the inner join on [station_id], in the order of the
    left keys. *)
Definition inner_join (info : list info_row) (status : list status_row)
  : list merged_row :=
  flat_map
    (fun i =>
       map (join i)
           (filter (fun s => String.eqb (info_station_id i)
                                        (status_station_id s))
                   status))
    info.

(** [pd.merge(info, status, on='station_id')].  A frame built from an
    empty list of stations has no columns, and the merge then raises
    [KeyError: 'station_id']. *)
Definition pd_merge (info : list info_row) (status : list status_row)
  : M (list merged_row) :=
  match info, status with
  | [], _ | _, [] => raise (KeyError "station_id")
  | _, _ => ret (inner_join info status)
  end.

(** [load_from_api()] *)
Definition load_from_api (w : world) : M DataFrame :=
  try_except
    (info <- external (Requests_get info_url) (station_information w) ;;
     status <- external (Requests_get status_url) (station_status w) ;;
     df <- pd_merge info status ;;
     let df := map (calculate_demand_metrics (timestamp_now w)) df in
     emit (Logger_info "Successfully loaded data from GBFS API") ;;
     ret df)
    (fun e =>
       emit (Logger_error "Error loading data from API: " e) ;;
       ret []).

(** ** The warehouse adapter *)

(** [get_snowflake_connection()]: the connection, or [None]. *)
Definition get_snowflake_connection (w : world) : M (option unit) :=
  try_except
    (conn <- external Snowflake_connect (snowflake_connect w) ;;
     ret (Some conn))
    (fun e =>
       emit (Logger_error "Error connecting to Snowflake: " e) ;;
       ret None).

(** [load_from_snowflake()] *)
Definition load_from_snowflake (w : world) : M DataFrame :=
  try_except
    (conn <- get_snowflake_connection w ;;
     match conn with
     | None => ret []
     | Some _ =>
       df <- external Pd_read_sql (pd_read_sql w) ;;
       external Conn_close (conn_close w) ;;
       emit (Logger_info "Successfully loaded data from Snowflake gold table") ;;
       ret df
     end)
    (fun e =>
       emit (Logger_error "Error loading data from Snowflake: " e) ;;
       ret []).

(** ** The fallback orchestration *)

Definition exhausted_message : string :=
  "Unable to load station data from both Snowflake and API. Please try again later.".
Definition backup_message : string :=
  "⚠️ Using backup data from GBFS API (Snowflake data unavailable)".

(** [load_station_data()], on a run that finds nothing in the cache of
    [st.cache_data]. *)
Definition load_station_data (w : world) : M DataFrame :=
  df <- load_from_snowflake w ;;
  if empty df then
    emit (Logger_warning "Snowflake load failed, falling back to API") ;;
    df <- load_from_api w ;;
    (if empty df then
       emit (St_error exhausted_message) ;;
       st_stop
     else
       emit (St_warning backup_message)) ;;
    ret df
  else
    ret df.

(** ** The rest of the script *)

(** The two widgets that the user controls. *)
Record inputs : Type := mk_inputs {
  (** [st.sidebar.slider("Minimum station capacity", 0, 60, 10)] *)
  min_capacity : Z;
  (** [st.checkbox("Show raw data table")] *)
  show_raw_data : bool
}.

(** [df[df['capacity'] >= min_capacity]] *)
Definition filter_min_capacity (min_capacity : Z) (df : DataFrame) : DataFrame :=
  filter (fun r => min_capacity <=? capacity r) df.

(** [filtered_df[filtered_df['num_bikes_available'] == 0]] *)
Definition empty_stations (filtered_df : DataFrame) : DataFrame :=
  filter (fun r => num_bikes_available r =? 0) filtered_df.

(** [filtered_df[filtered_df['num_docks_available'] == 0]] *)
Definition full_stations (filtered_df : DataFrame) : DataFrame :=
  filter (fun r => num_docks_available r =? 0) filtered_df.

(** [filtered_df[filtered_df['out_of_service_bikes'] > 0]] *)
Definition out_of_service (filtered_df : DataFrame) : DataFrame :=
  filter (fun r => 0 <? out_of_service_bikes r) filtered_df.

(** [filtered_df.apply(get_station_color, axis=1)]: row after row, the
    first exception ends the loop.  On a frame without rows the embedding
    gives the empty column; what pandas does there is not modelled. *)
Fixpoint apply_color (filtered_df : DataFrame) : M (list (list Z)) :=
  match filtered_df with
  | [] => ret []
  | row :: rest =>
    c <- lift (get_station_color row) ;;
    cs <- apply_color rest ;;
    ret (c :: cs)
  end.

(** [filtered_df['capacity'].apply(get_station_radius)] *)
Definition apply_radius (filtered_df : DataFrame) : list Z :=
  map (fun r => get_station_radius (capacity r)) filtered_df.

(** [df['last_reported'].max()] *)
Definition max_last_reported (df : DataFrame) : Z :=
  match df with
  | [] => 0
  | r :: rest => fold_left Z.max (map last_reported rest) (last_reported r)
  end.

(** The three summary counts of the page, over the filtered table. *)
Definition summary_counts (filtered_df : DataFrame) : nat * nat * nat :=
  (List.length (empty_stations filtered_df),
   List.length (full_stations filtered_df),
   List.length (out_of_service filtered_df)).

(** The stages after the load, given the loaded table. *)
Definition present (df : DataFrame) (ui : inputs) : M unit :=
  let filtered_df := filter_min_capacity (min_capacity ui) df in
  emit (St_markdown_showing (List.length filtered_df) (min_capacity ui)) ;;
  color <- apply_color filtered_df ;;
  let radius := apply_radius filtered_df in
  emit (St_pydeck_chart (combine (combine filtered_df color) radius)) ;;
  emit (St_metric "Empty Stations" (List.length (empty_stations filtered_df))) ;;
  emit (St_metric "Full Stations" (List.length (full_stations filtered_df))) ;;
  emit (St_metric "Stations with Out-of-Service Bikes"
                  (List.length (out_of_service filtered_df))) ;;
  (if negb (empty df) then emit (St_sidebar_last_updated (max_last_reported df))
   else ret tt) ;;
  (if show_raw_data ui then emit (St_dataframe filtered_df) else ret tt).

(** The script from [df = load_station_data()] on. *)
Definition script (w : world) (ui : inputs) : M unit :=
  df <- load_station_data w ;;
  (if empty df then
     emit (St_error "Unable to load station data. Please try again later.") ;;
     st_stop
   else ret tt) ;;
  present df ui.

(** The events of the stages after the load: filtering, encoding,
    rendering, counting. *)
Definition downstream (e : event) : bool :=
  match e with
  | St_markdown_showing _ _ | St_pydeck_chart _ | St_metric _ _
  | St_sidebar_last_updated _ | St_dataframe _ => true
  | _ => false
  end.

(** ** Vocabulary of the properties *)

(** [total_bikes] of [get_station_color], as a function of the row. *)
Definition total_bikes (row : station) : Z :=
  num_bikes_available row + out_of_service_bikes row.

(** [z] is [q] with its fractional part cut off (rounding toward zero). *)
Definition truncates (z : Z) (q : Q) : Prop :=
  ((0 <= q)%Q -> (inject_Z z <= q)%Q /\ (q < inject_Z (z + 1))%Q) /\
  ((q <= 0)%Q -> (inject_Z (z - 1) < q)%Q /\ (q <= inject_Z z)%Q).



Definition channels_in_range (c : list Z) : Prop :=
  Forall (fun x => 0 <= x <= 255) c.

Definition red_dominates (c : list Z) : Prop :=
  match c with
  | [r; g; b; _] => g <= r /\ b <= r
  | _ => False
  end.

(** A ratio that is a number between 0 and 1. *)
Definition in_unit (x : float64) : Prop :=
  match x with Finite q => (0 <= q)%Q /\ (q <= 1)%Q | _ => False end.

(** A ratio that is a number and not negative. *)
Definition non_negative (x : float64) : Prop :=
  match x with Finite q => (0 <= q)%Q | _ => False end.

(** What pandas stores for [n / 0]. *)
Definition quotient_by_zero (n : Z) (x : float64) : Prop :=
  (n = 0 -> x = NaN) /\ (0 < n -> x = PosInf) /\ (n < 0 -> x = NegInf).

(** The guard that the specification asks of the derivation: numbers for
    the ratios of a station without docks. *)
Definition ratios_defined (r : station) : Prop :=
  capacity r = 0 ->
  is_finite (bike_utilization r) = true /\
  is_finite (dock_utilization r) = true /\
  is_finite (out_of_service_ratio r) = true.

(** ... and no negative count of bikes out of service. *)
Definition out_of_service_clamped (r : station) : Prop :=
  capacity r < num_bikes_available r + num_docks_available r ->
  0 <= out_of_service_bikes r.

(** [notna()] on the three ratio columns of a row. *)
Definition populated (r : station) : bool :=
  negb (is_nan (bike_utilization r)) &&
  negb (is_nan (dock_utilization r)) &&
  negb (is_nan (out_of_service_ratio r)).

(** The rows that an event shows to the user. *)
Definition presented (e : event) : list station :=
  match e with
  | St_pydeck_chart data => map (fun d => fst (fst d)) data
  | St_dataframe rows => rows
  | _ => []
  end.

(** Every row shown has its ratios and at least the chosen capacity. *)
Definition presentation_invariant (w : world) (ui : inputs) : Prop :=
  forall e row, In e (trace (script w ui)) -> In row (presented e) ->
                populated row = true /\ min_capacity ui <= capacity row.

(** A diagnostic was recorded. *)
Definition diagnosed (t : list event) : Prop :=
  exists msg e, In (Logger_error msg e) t.

(** The ways in which the feed can fail: a request or its parsing
    raises, or a list of stations is empty and the join raises. *)
Definition api_failure (w : world) : Prop :=
  (exists e, station_information w = inl e) \/
  (exists e, station_status w = inl e) \/
  station_information w = inr [] \/
  station_status w = inr [].

(** The ways in which the warehouse can fail. *)
Definition snowflake_failure (w : world) : Prop :=
  (exists e, snowflake_connect w = inl e) \/
  (exists e, pd_read_sql w = inl e) \/
  (exists e, conn_close w = inl e).

(** The events of the warehouse adapter. *)
Definition warehouse_event (e : event) : bool :=
  match e with
  | Snowflake_connect | Pd_read_sql | Conn_close
  | Logger_info _ | Logger_error _ _ => true
  | _ => false
  end.

(** What [present] sends out when every colour could be computed. *)
Definition page (df : DataFrame) (ui : inputs) (color : list (list Z))
  : list event :=
  let filtered_df := filter_min_capacity (min_capacity ui) df in
  [ St_markdown_showing (List.length filtered_df) (min_capacity ui);
    St_pydeck_chart
      (combine (combine filtered_df color) (apply_radius filtered_df));
    St_metric "Empty Stations" (List.length (empty_stations filtered_df));
    St_metric "Full Stations" (List.length (full_stations filtered_df));
    St_metric "Stations with Out-of-Service Bikes"
              (List.length (out_of_service filtered_df)) ]
  ++ (if negb (empty df) then [St_sidebar_last_updated (max_last_reported df)]
      else [])
  ++ (if show_raw_data ui then [St_dataframe filtered_df] else []).

(** ** Concrete stations and worlds *)

Definition raw (capacity bikes docks : Z) : merged_row :=
  {| m_station_id := "s"; m_name := "n"; m_lat := 0%Q; m_lon := 0%Q;
     m_capacity := capacity; m_num_bikes_available := bikes;
     m_num_docks_available := docks |}.

Definition info_of (m : merged_row) : info_row :=
  {| info_station_id := m_station_id m; info_name := m_name m;
     info_lat := m_lat m; info_lon := m_lon m;
     info_capacity := m_capacity m |}.

Definition status_of (m : merged_row) : status_row :=
  {| status_station_id := m_station_id m;
     status_num_bikes_available := m_num_bikes_available m;
     status_num_docks_available := m_num_docks_available m |}.

(** A world in which Snowflake refuses the connection and the feed
    lists the given stations. *)
Definition live_world (now : Z) (stations : list merged_row) : world :=
  {| snowflake_connect := inl (Exception "connection refused");
     pd_read_sql := inl (Exception "no connection");
     conn_close := inr tt;
     station_information := inr (map info_of stations);
     station_status := inr (map status_of stations);
     timestamp_now := now |}.

(** A world in which neither source answers. *)
Definition dark_world : world :=
  {| snowflake_connect := inl (Exception "connection refused");
     pd_read_sql := inl (Exception "no connection");
     conn_close := inr tt;
     station_information := inl (Exception "network unreachable");
     station_status := inl (Exception "network unreachable");
     timestamp_now := 0 |}.

(** A world in which the gold table holds the given rows. *)
Definition warehouse_world (df : DataFrame) : world :=
  {| snowflake_connect := inr tt;
     pd_read_sql := inr df;
     conn_close := inr tt;
     station_information := inl (Exception "network unreachable");
     station_status := inl (Exception "network unreachable");
     timestamp_now := 0 |}.

(** The station of the specification's example: 15 docks, 10 bikes,
    3 free docks. *)
Definition spec_example : station := calculate_demand_metrics 0 (raw 15 10 3).
(** 4 docks, 1 bike, 3 free docks: a quarter used. *)
Definition quarter_station : station := calculate_demand_metrics 0 (raw 4 1 3).
(** 10 docks and 20 bikes. *)
Definition overfull_station : station := calculate_demand_metrics 0 (raw 10 20 0).
(** No docks and one bike. *)
Definition zero_capacity_station : station := calculate_demand_metrics 0 (raw 0 1 0).
(** No docks, no bikes. *)
Definition vacant_station : station := calculate_demand_metrics 0 (raw 0 0 0).

(** The events that the two adapters send: calls and log lines. *)
Definition adapter_event (e : event) : bool :=
  match e with
  | Snowflake_connect | Pd_read_sql | Conn_close | Requests_get _
  | Logger_info _ | Logger_error _ _ => true
  | _ => false
  end.

(** A world in which Snowflake is down and the two lists of the feed name
    different stations. *)
Definition mismatched_world : world :=
  {| snowflake_connect := inl (Exception "connection refused");
     pd_read_sql := inl (Exception "no connection");
     conn_close := inr tt;
     station_information :=
       inr [ {| info_station_id := "a"; info_name := "A";
                info_lat := 0%Q; info_lon := 0%Q; info_capacity := 15 |} ];
     station_status :=
       inr [ {| status_station_id := "b";
                status_num_bikes_available := 10;
                status_num_docks_available := 3 |} ];
     timestamp_now := 0 |}.

(** A world in which the connection and the query succeed and closing
    the connection raises. *)
Definition unclosed_world (df : DataFrame) : world :=
  {| snowflake_connect := inr tt;
     pd_read_sql := inr df;
     conn_close := inl (Exception "close failed");
     station_information := inl (Exception "network unreachable");
     station_status := inl (Exception "network unreachable");
     timestamp_now := 0 |}.

(** A world in which Snowflake is down and the feed, fetched at time 7,
    lists two stations. *)
Definition two_station_world : world :=
  live_world 7 [raw 15 10 3;
                {| m_station_id := "t"; m_name := "n";
                   m_lat := 0%Q; m_lon := 0%Q; m_capacity := 20;
                   m_num_bikes_available := 0;
                   m_num_docks_available := 20 |}].

(** A value that an int64 cell can hold. *)
Definition int64 (z : Z) : Prop := - 2 ^ 63 <= z < 2 ^ 63.

(** What int64 arithmetic stores for the exact result [z]. *)
Definition wrap64 (z : Z) : Z := (z + 2 ^ 63) mod 2 ^ 64 - 2 ^ 63.

(** The raw columns of the row are int64 values, and neither the sum nor
    the difference of line 45 leaves the int64 range. *)
Definition no_wrap (m : merged_row) : Prop :=
  int64 (m_capacity m) /\
  int64 (m_num_bikes_available m) /\
  int64 (m_num_docks_available m) /\
  int64 (m_num_bikes_available m + m_num_docks_available m) /\
  int64 (m_capacity m - (m_num_bikes_available m + m_num_docks_available m)).

(** The largest finite binary64 number, (2^53 - 1) * 2^971. *)
Definition binary64_max : Q := inject_Z ((2 ^ 53 - 1) * 2 ^ 971).

(** [255 * x] does not overflow binary64. *)
Definition no_overflow (x : float64) : Prop :=
  match x with
  | Finite q => (Qabs (255 * q) <= binary64_max)%Q
  | _ => True
  end.



(** * Properties *)

(** ** Truncation and division *)

Lemma quot_truncates (q : Q) : truncates (Z.quot (Qnum q) (Zpos (Qden q))) q.
Proof.
  destruct q as [n d]; simpl.
  pose proof (Z.quot_rem' n (Zpos d)) as Hqr.
  unfold truncates, Qle, Qlt; simpl.
  split; intros H.
  - assert (Hn : 0 <= n) by lia.
    pose proof (Z.rem_bound_pos n (Zpos d) Hn ltac:(lia)). nia.
  - assert (Hn : n <= 0) by lia.
    pose proof (Z.rem_bound_pos_neg n (Zpos d) ltac:(lia) Hn). nia.
Qed.

Lemma truncates_proper z p q : (p == q)%Q -> truncates z p -> truncates z q.
Proof.
  intros E [H1 H2]; split; intros H; rewrite <- E in *; auto.
Qed.

(** [int] of a finite float returns, and returns the truncation. *)
Lemma int_finite q :
  exists z, int (Finite (Qred q)) = inr z /\ truncates z q.
Proof.
  eexists; split; [reflexivity|].
  apply truncates_proper with (p := Qred q); [apply Qred_correct|].
  apply quot_truncates.
Qed.

Lemma truncates_bounds z q lo hi :
  0 <= lo -> (inject_Z lo <= q)%Q -> (q <= inject_Z hi)%Q -> truncates z q ->
  lo <= z <= hi.
Proof.
  intros Hlo H1 H2 [Hp _].
  assert (H0 : (0 <= q)%Q).
  { eapply Qle_trans; [|exact H1]. unfold Qle; simpl; lia. }
  destruct (Hp H0) as [Ha Hb].
  assert (Hc : (inject_Z lo < inject_Z (z + 1))%Q) by (eapply Qle_lt_trans; eauto).
  assert (Hd : (inject_Z z <= inject_Z hi)%Q) by (eapply Qle_trans; eauto).
  rewrite <- Zlt_Qlt in Hc. rewrite <- Zle_Qle in Hd. lia.
Qed.

Lemma truncates_nonneg z q : (0 <= q)%Q -> truncates z q -> 0 <= z.
Proof.
  intros Hq [P _]. destruct (P Hq) as [_ B].
  assert (H : (inject_Z 0 < inject_Z (z + 1))%Q) by (eapply Qle_lt_trans; eauto).
  rewrite <- Zlt_Qlt in H. lia.
Qed.

(** The truncation of a number is one integer. *)
Lemma truncates_unique z z' q : truncates z q -> truncates z' q -> z = z'.
Proof.
  intros [P N] [P' N'].
  destruct (Qlt_le_dec q 0) as [Hq | Hq].
  - apply Qlt_le_weak in Hq.
    destruct (N Hq) as [A B], (N' Hq) as [A' B'].
    assert (H1 : (inject_Z (z - 1) < inject_Z z')%Q) by (eapply Qlt_le_trans; eauto).
    assert (H2 : (inject_Z (z' - 1) < inject_Z z)%Q) by (eapply Qlt_le_trans; eauto).
    rewrite <- Zlt_Qlt in H1, H2. lia.
  - destruct (P Hq) as [A B], (P' Hq) as [A' B'].
    assert (H1 : (inject_Z z < inject_Z (z' + 1))%Q) by (eapply Qle_lt_trans; eauto).
    assert (H2 : (inject_Z z' < inject_Z (z + 1))%Q) by (eapply Qle_lt_trans; eauto).
    rewrite <- Zlt_Qlt in H1, H2. lia.
Qed.

Lemma truediv_finite x y :
  y <> 0 -> truediv x y = Finite (Qred (inject_Z x / inject_Z y)).
Proof. intros H. unfold truediv. destruct (Z.eqb_spec y 0); congruence. Qed.

Lemma truediv_zero x :
  truediv x 0 = if x =? 0 then NaN else if 0 <? x then PosInf else NegInf.
Proof. reflexivity. Qed.

Lemma scaled_unit u : (0 <= u)%Q -> (u <= 1)%Q ->
  (inject_Z 0 <= 255 * u)%Q /\ (255 * u <= inject_Z 255)%Q.
Proof.
  intros H0 H1. split.
  - apply Qmult_le_0_compat; [unfold Qle; simpl; lia | assumption].
  - setoid_replace (inject_Z 255) with (255 * 1)%Q by reflexivity.
    apply Qmult_le_l; [reflexivity | assumption].
Qed.


Lemma wrap64_id z : int64 z -> wrap64 z = z.
Proof.
  unfold int64, wrap64. intros H.
  rewrite Z.mod_small; lia.
Qed.

(** Within [no_wrap], int64 arithmetic stores the exact difference. *)
Lemma no_wrap_exact m :
  no_wrap m ->
  wrap64 (m_capacity m
          - wrap64 (m_num_bikes_available m + m_num_docks_available m))
  = m_capacity m - (m_num_bikes_available m + m_num_docks_available m).
Proof.
  intros (_ & _ & _ & H1 & H2).
  rewrite (wrap64_id _ H1). apply wrap64_id. exact H2.
Qed.

(** ** The derivation *)


Lemma derived_populated now m :
  m_capacity m <> 0 ->
  let r := calculate_demand_metrics now m in
  is_finite (bike_utilization r) = true /\
  is_finite (dock_utilization r) = true /\
  is_finite (out_of_service_ratio r) = true /\
  populated r = true.
Proof.
  intros H. cbv zeta. unfold populated.
  cbn [calculate_demand_metrics bike_utilization dock_utilization
       out_of_service_ratio].
  rewrite !truediv_finite by assumption. repeat split.
Qed.

Lemma rederive_idem now now' df :
  map derived_columns (rederive now' (rederive now df))
  = map derived_columns (rederive now df).
Proof.
  unfold rederive. rewrite !map_map. apply map_ext. intros r. reflexivity.
Qed.

(** A station whose counts fit into its docks has its three ratios
    between 0 and 1. *)
Lemma consistent_in_unit now m :
  0 < m_capacity m -> 0 <= m_num_bikes_available m ->
  0 <= m_num_docks_available m ->
  m_num_bikes_available m + m_num_docks_available m <= m_capacity m ->
  let r := calculate_demand_metrics now m in
  in_unit (bike_utilization r) /\ in_unit (dock_utilization r) /\
  in_unit (out_of_service_ratio r).
Proof.
  intros Hc Hb Hd Hs. cbv zeta.
  cbn [calculate_demand_metrics bike_utilization dock_utilization
       out_of_service_ratio].
  rewrite !truediv_finite by lia. unfold in_unit.
  assert (Q : forall x, 0 <= x <= m_capacity m ->
              (0 <= Qred (inject_Z x / inject_Z (m_capacity m)))%Q /\
              (Qred (inject_Z x / inject_Z (m_capacity m)) <= 1)%Q).
  { intros x Hx. rewrite Qred_correct.
    assert (Hpos : (0 < inject_Z (m_capacity m))%Q).
    { change 0%Q with (inject_Z 0). rewrite <- Zlt_Qlt. lia. }
    split.
    - apply Qle_shift_div_l; [assumption|]. rewrite Qmult_0_l.
      change 0%Q with (inject_Z 0). rewrite <- Zle_Qle. lia.
    - apply Qle_shift_div_r; [assumption|]. rewrite Qmult_1_l.
      rewrite <- Zle_Qle. lia. }
  repeat split; apply Q; lia.
Qed.

(** ** The colour *)

Lemma color_no_data row :
  total_bikes row = 0 -> get_station_color row = inr [200; 200; 200; 200].
Proof.
  unfold total_bikes, get_station_color. intros ->. reflexivity.
Qed.

Lemma color_finite row u r :
  total_bikes row <> 0 ->
  bike_utilization row = Finite u -> out_of_service_ratio row = Finite r ->
  exists base red_boost,
    truncates base (255 * u) /\ truncates red_boost (255 * r) /\
    get_station_color row
    = inr [Z.min 255 (base + red_boost); base; base; 200].
Proof.
  unfold total_bikes, get_station_color. intros Ht Hu Hr.
  destruct (Z.eqb_spec (num_bikes_available row + out_of_service_bikes row) 0)
    as [E | _]; [contradiction|].
  rewrite Hu, Hr. cbn [int_mul].
  destruct (int_finite (inject_Z 255 * u)) as (b & Eb & Tb).
  destruct (int_finite (inject_Z 255 * r)) as (rb & Er & Tr).
  rewrite Eb, Er. exists b, rb.
  split; [assumption | split; [assumption | reflexivity]].
Qed.

(** [int] raises on a ratio that is not a number, and so does the
    colour. *)
Lemma color_not_finite row :
  total_bikes row <> 0 ->
  is_finite (bike_utilization row) = false \/
  is_finite (out_of_service_ratio row) = false ->
  exists e, get_station_color row = inl e.
Proof.
  unfold total_bikes, get_station_color. intros Ht H.
  destruct (Z.eqb_spec (num_bikes_available row + out_of_service_bikes row) 0)
    as [E | _]; [contradiction|].
  destruct (bike_utilization row) as [u | | |];
    try (cbn; eexists; reflexivity).
  cbn [int_mul]. destruct (int_finite (inject_Z 255 * u)) as (b & Eb & _).
  rewrite Eb.
  destruct H as [H | H]; [discriminate|].
  destruct (out_of_service_ratio row); try discriminate;
    cbn; eexists; reflexivity.
Qed.

(** ** The radius *)

Ltac decide_cmp :=
  repeat match goal with
         | |- context [?a <=? ?b] =>
           first [ rewrite (proj2 (Z.leb_le a b)) by lia
                 | rewrite (proj2 (Z.leb_gt a b)) by lia ]
         | |- context [?a <? ?b] =>
           first [ rewrite (proj2 (Z.ltb_lt a b)) by lia
                 | rewrite (proj2 (Z.ltb_ge a b)) by lia ]
         end.

Ltac radius_cases :=
  unfold get_station_radius, size_groups, find_group, lt_upper;
  decide_cmp; cbn [andb].

Lemma capacity_ranges c :
  c < 0 \/ 0 <= c < 10 \/ 10 <= c < 20 \/ 20 <= c < 30 \/
  30 <= c < 50 \/ 50 <= c < 75 \/ 75 <= c < 100 \/ 100 <= c.
Proof. lia. Qed.

Lemma radius_values c :
  (c < 0 -> get_station_radius c = 3) /\
  (0 <= c < 10 -> get_station_radius c = 3) /\
  (10 <= c < 20 -> get_station_radius c = 8) /\
  (20 <= c < 30 -> get_station_radius c = 15) /\
  (30 <= c < 50 -> get_station_radius c = 20) /\
  (50 <= c < 75 -> get_station_radius c = 30) /\
  (75 <= c < 100 -> get_station_radius c = 40) /\
  (100 <= c -> get_station_radius c = 50).
Proof. repeat split; intros; radius_cases; reflexivity. Qed.

Ltac by_range c :=
  destruct (radius_values c) as (?R0 & ?R1 & ?R2 & ?R3 & ?R4 & ?R5 & ?R6 & ?R7);
  destruct (capacity_ranges c) as [?H|[?H|[?H|[?H|[?H|[?H|[?H|?H]]]]]]];
  repeat match goal with
         | I : ?P -> get_station_radius c = _, H : ?P |- _ =>
           rewrite (I H) in *
         end;
  clear R0 R1 R2 R3 R4 R5 R6 R7.

Lemma radius_mono a b : a <= b -> get_station_radius a <= get_station_radius b.
Proof.
  intros H. by_range a; by_range b; lia.
Qed.

Lemma find_group_none c : find_group size_groups c = None <-> c < 0.
Proof.
  destruct (capacity_ranges c) as [?H|[?H|[?H|[?H|[?H|[?H|[?H|?H]]]]]]];
    unfold size_groups, find_group, lt_upper; decide_cmp; cbn [andb];
    split; intros; try lia; try discriminate; reflexivity.
Qed.

(** ** The adapters, step by step *)

Lemma bind_ret_eq {A B} (t : list event) (a : A) (k : A -> M B) :
  bind (t, Ret a) k = (t ++ trace (k a), result (k a)).
Proof. unfold bind, trace, result. destruct (k a); reflexivity. Qed.

Lemma load_from_snowflake_eq w :
  load_from_snowflake w =
  match snowflake_connect w with
  | inl e =>
    ([Snowflake_connect; Logger_error "Error connecting to Snowflake: " e],
     Ret [])
  | inr _ =>
    match pd_read_sql w with
    | inl e =>
      ([Snowflake_connect; Pd_read_sql;
        Logger_error "Error loading data from Snowflake: " e], Ret [])
    | inr df =>
      match conn_close w with
      | inl e =>
        ([Snowflake_connect; Pd_read_sql; Conn_close;
          Logger_error "Error loading data from Snowflake: " e], Ret [])
      | inr _ =>
        ([Snowflake_connect; Pd_read_sql; Conn_close;
          Logger_info "Successfully loaded data from Snowflake gold table"],
         Ret df)
      end
    end
  end.
Proof.
  unfold load_from_snowflake, get_snowflake_connection.
  destruct (snowflake_connect w); [reflexivity|].
  destruct (pd_read_sql w); [reflexivity|].
  destruct (conn_close w); reflexivity.
Qed.

Lemma load_from_api_eq w :
  load_from_api w =
  match station_information w with
  | inl e =>
    ([Requests_get info_url; Logger_error "Error loading data from API: " e],
     Ret [])
  | inr info =>
    match station_status w with
    | inl e =>
      ([Requests_get info_url; Requests_get status_url;
        Logger_error "Error loading data from API: " e], Ret [])
    | inr status =>
      match info, status with
      | [], _ | _, [] =>
        ([Requests_get info_url; Requests_get status_url;
          Logger_error "Error loading data from API: " (KeyError "station_id")],
         Ret [])
      | _, _ =>
        ([Requests_get info_url; Requests_get status_url;
          Logger_info "Successfully loaded data from GBFS API"],
         Ret (map (calculate_demand_metrics (timestamp_now w))
                  (inner_join info status)))
      end
    end
  end.
Proof.
  unfold load_from_api.
  destruct (station_information w) as [e | info]; [reflexivity|].
  destruct (station_status w) as [e | status]; [reflexivity|].
  destruct info, status; reflexivity.
Qed.

Ltac api_cases w :=
  rewrite load_from_api_eq;
  destruct (station_information w) as [?e | [| ?i ?info]];
  [ | destruct (station_status w) as [?e | [| ?s ?status]]
    | destruct (station_status w) as [?e | [| ?s ?status]] ].

Ltac snowflake_cases w :=
  rewrite load_from_snowflake_eq;
  destruct (snowflake_connect w) as [?e | ?c];
  [ | destruct (pd_read_sql w) as [?e | ?df];
      [ | destruct (conn_close w) as [?e | ?u] ] ].

Lemma load_from_snowflake_returns w :
  exists df, result (load_from_snowflake w) = Ret df.
Proof. snowflake_cases w; eexists; reflexivity. Qed.

Lemma load_from_api_returns w :
  exists df, result (load_from_api w) = Ret df.
Proof. api_cases w; eexists; reflexivity. Qed.

Lemma load_from_api_first w :
  exists rest, trace (load_from_api w) = Requests_get info_url :: rest.
Proof. api_cases w; eexists; reflexivity. Qed.

Lemma load_from_snowflake_events w :
  forallb warehouse_event (trace (load_from_snowflake w)) = true.
Proof. snowflake_cases w; reflexivity. Qed.

Lemma load_from_api_upstream w :
  forallb (fun e => negb (downstream e)) (trace (load_from_api w)) = true.
Proof. api_cases w; reflexivity. Qed.

Lemma warehouse_event_upstream t :
  forallb warehouse_event t = true ->
  forallb (fun e => negb (downstream e)) t = true.
Proof.
  rewrite !forallb_forall. intros U e He.
  specialize (U e He). destruct e; try discriminate; reflexivity.
Qed.

(** Every row of the feed's table comes out of the derivation. *)
Lemma load_from_api_rows w df r :
  result (load_from_api w) = Ret df -> In r df ->
  exists m, r = calculate_demand_metrics (timestamp_now w) m.
Proof.
  api_cases w; intros [= <-] Hin; try (destruct Hin; fail).
  apply in_map_iff in Hin. destruct Hin as (m & <- & _). eauto.
Qed.

(** ** The orchestration and the script, step by step *)

Lemma load_station_data_eq w t1 df1 t2 df2 :
  load_from_snowflake w = (t1, Ret df1) ->
  load_from_api w = (t2, Ret df2) ->
  load_station_data w =
  match df1, df2 with
  | _ :: _, _ => (t1, Ret df1)
  | [], _ :: _ =>
    (t1 ++ Logger_warning "Snowflake load failed, falling back to API"
        :: t2 ++ [St_warning backup_message], Ret df2)
  | [], [] =>
    (t1 ++ Logger_warning "Snowflake load failed, falling back to API"
        :: t2 ++ [St_error exhausted_message], Halt)
  end.
Proof.
  intros E1 E2. unfold load_station_data. rewrite E1.
  destruct df1 as [| r1 df1].
  - cbn. rewrite E2. destruct df2; cbn; rewrite ?app_nil_r; reflexivity.
  - cbn. rewrite app_nil_r. reflexivity.
Qed.

(** The load ends with a table that has rows, or with [st.stop()]; in
    both cases nothing of the later stages has been sent out. *)
Lemma load_station_data_cases w :
  (exists t df, df <> [] /\ load_station_data w = (t, Ret df) /\
                forallb (fun e => negb (downstream e)) t = true) \/
  (exists t, load_station_data w = (t, Halt) /\
             forallb (fun e => negb (downstream e)) t = true).
Proof.
  destruct (load_from_snowflake_returns w) as [df1 R1].
  destruct (load_from_api_returns w) as [df2 R2].
  pose proof (warehouse_event_upstream _ (load_from_snowflake_events w)) as U1.
  pose proof (load_from_api_upstream w) as U2.
  destruct (load_from_snowflake w) as [t1 o1] eqn:E1.
  destruct (load_from_api w) as [t2 o2] eqn:E2.
  cbn in R1, R2, U1, U2. subst o1 o2.
  rewrite (load_station_data_eq w t1 df1 t2 df2 E1 E2).
  destruct df1 as [| r1 df1]; [destruct df2 as [| r2 df2] |].
  - right. eexists. split; [reflexivity|].
    rewrite forallb_app. cbn. rewrite forallb_app. cbn.
    rewrite U1, U2. reflexivity.
  - left. do 2 eexists. split; [|split; [reflexivity|]]; [discriminate|].
    rewrite forallb_app. cbn. rewrite forallb_app. cbn.
    rewrite U1, U2. reflexivity.
  - left. do 2 eexists. split; [|split; [reflexivity|]]; [discriminate|].
    exact U1.
Qed.

Lemma apply_color_trace df : trace (apply_color df) = [].
Proof.
  induction df as [| row rest IH]; [reflexivity|].
  cbn [apply_color]. destruct (get_station_color row) as [e | c]; [reflexivity|].
  cbn [lift]. unfold ret at 1. rewrite bind_ret_eq. cbn [app].
  destruct (apply_color rest) as [t [cs | e |]]; cbn in IH |- *;
    subst; reflexivity.
Qed.

Lemma present_eq df ui :
  let filtered_df := filter_min_capacity (min_capacity ui) df in
  present df ui =
  match result (apply_color filtered_df) with
  | Ret color => (page df ui color, Ret tt)
  | Raise e =>
    ([St_markdown_showing (List.length filtered_df) (min_capacity ui)], Raise e)
  | Halt =>
    ([St_markdown_showing (List.length filtered_df) (min_capacity ui)], Halt)
  end.
Proof.
  cbv zeta. unfold present, page.
  pose proof (apply_color_trace (filter_min_capacity (min_capacity ui) df)) as Ht.
  destruct (apply_color (filter_min_capacity (min_capacity ui) df))
    as [t [color | e |]]; cbn in Ht; subst t; cbn; try reflexivity.
  destruct (empty df), (show_raw_data ui); reflexivity.
Qed.

(** What [present] sends out is a part of the page. *)
Lemma present_page df ui e :
  In e (trace (present df ui)) ->
  exists color, In e (page df ui color).
Proof.
  rewrite present_eq.
  destruct (result (apply_color (filter_min_capacity (min_capacity ui) df)))
    as [color | x |]; cbn [trace fst].
  - eauto.
  - intros [<- | []]. exists []. left. reflexivity.
  - intros [<- | []]. exists []. left. reflexivity.
Qed.

Lemma page_presented df ui color e row :
  In e (page df ui color) -> In row (presented e) ->
  In row (filter_min_capacity (min_capacity ui) df).
Proof.
  unfold page. intros He Hr.
  apply in_app_or in He. destruct He as [He | He].
  - destruct He as [<- | [<- | [<- | [<- | [<- | []]]]]];
      cbn [presented] in Hr; try contradiction.
    apply in_map_iff in Hr. destruct Hr as ([[r c] rad] & <- & Hin).
    apply in_combine_l in Hin. apply in_combine_l in Hin. exact Hin.
  - apply in_app_or in He. destruct He as [He | He].
    + destruct (negb (empty df)); [|contradiction].
      destruct He as [<- | []]. contradiction.
    + destruct (show_raw_data ui); [|contradiction].
      destruct He as [<- | []]. exact Hr.
Qed.

Lemma page_metric df ui color label n :
  In (St_metric label n) (page df ui color) ->
  let filtered_df := filter_min_capacity (min_capacity ui) df in
  (label = "Empty Stations"%string /\
   n = List.length (empty_stations filtered_df)) \/
  (label = "Full Stations"%string /\
   n = List.length (full_stations filtered_df)) \/
  (label = "Stations with Out-of-Service Bikes"%string /\
   n = List.length (out_of_service filtered_df)).
Proof.
  unfold page. intros He. cbv zeta.
  apply in_app_or in He. destruct He as [He | He].
  - destruct He as [He | [He | [He | [He | [He | []]]]]];
      try discriminate; injection He as <- <-; auto.
  - apply in_app_or in He. destruct He as [He | He].
    + destruct (negb (empty df)); [|contradiction].
      destruct He as [He | []]. discriminate.
    + destruct (show_raw_data ui); [|contradiction].
      destruct He as [He | []]. discriminate.
Qed.

Lemma filter_min_capacity_In t df r :
  In r (filter_min_capacity t df) <-> In r df /\ t <= capacity r.
Proof.
  unfold filter_min_capacity. rewrite filter_In, Z.leb_le. reflexivity.
Qed.

Lemma script_loaded w ui t df :
  load_station_data w = (t, Ret df) -> df <> [] ->
  script w ui = (t ++ trace (present df ui), result (present df ui)).
Proof.
  intros E Hne. unfold script. rewrite E.
  rewrite bind_ret_eq. destruct df as [| r df]; [contradiction|].
  cbn [empty]. unfold ret at 1. rewrite bind_ret_eq. cbn [trace result fst snd app].
  unfold bind. destruct (present (r :: df) ui); reflexivity.
Qed.

Lemma script_halted w ui t :
  load_station_data w = (t, Halt) -> script w ui = (t, Halt).
Proof. intros E. unfold script. rewrite E. reflexivity. Qed.

(** An event of the later stages is sent by [present], on the table that
    the load returned. *)
Lemma script_downstream w ui e :
  In e (trace (script w ui)) -> downstream e = true ->
  exists df color, result (load_station_data w) = Ret df /\
                   In e (page df ui color).
Proof.
  intros He Hd.
  destruct (load_station_data_cases w)
    as [(t & df & Hne & E & U) | (t & E & U)].
  - rewrite (script_loaded w ui t df E Hne) in He. cbn [trace fst] in He.
    apply in_app_or in He. destruct He as [He | He].
    + rewrite forallb_forall in U. specialize (U e He).
      rewrite Hd in U. discriminate.
    + destruct (present_page df ui e He) as [color Hp].
      exists df, color. rewrite E. split; [reflexivity | assumption].
  - rewrite (script_halted w ui t E) in He. cbn [trace fst] in He.
    rewrite forallb_forall in U. specialize (U e He).
    rewrite Hd in U. discriminate.
Qed.

Lemma presented_downstream e row : In row (presented e) -> downstream e = true.
Proof. destruct e; cbn; intros H; try contradiction; reflexivity. Qed.

(** ** The fallback orchestration *)

(** C1.  [load_station_data] runs the warehouse adapter first.  It calls
    the live feed if and only if the warehouse table is empty.  When the
    feed then returns a table with rows, that table is the result and the
    backup warning is shown.  When both tables are empty, the terminal
    error is shown, the script stops, and nothing of the later stages
    (filter, colours, chart, counts, raw table) has been sent out. *)
Theorem load_station_data_fallback (w : world) :
  let warehouse := load_from_snowflake w in
  let live := load_from_api w in
  let run := load_station_data w in
  (exists rest, trace run = trace warehouse ++ rest) /\
  (In (Requests_get info_url) (trace run) <-> result warehouse = Ret []) /\
  (forall df, result warehouse = Ret [] -> result live = Ret df -> df <> [] ->
     result run = Ret df /\ In (St_warning backup_message) (trace run)) /\
  (result warehouse = Ret [] -> result live = Ret [] ->
     result run = Halt /\ In (St_error exhausted_message) (trace run) /\
     forallb (fun e => negb (downstream e)) (trace run) = true /\
     forall ui, script w ui = (trace run, Halt)).
Proof.
  cbv zeta.
  destruct (load_from_snowflake_returns w) as [df1 R1].
  destruct (load_from_api_returns w) as [df2 R2].
  destruct (load_from_api_first w) as [rest2 F2].
  pose proof (load_from_snowflake_events w) as W1.
  pose proof (warehouse_event_upstream _ W1) as U1.
  pose proof (load_from_api_upstream w) as U2.
  destruct (load_from_snowflake w) as [t1 o1] eqn:E1.
  destruct (load_from_api w) as [t2 o2] eqn:E2.
  cbn [trace result fst snd] in *. subst o1 o2 t2.
  pose proof (load_station_data_eq w t1 df1 _ df2 E1 E2) as E.
  assert (Hget : forall tail,
             In (Requests_get info_url)
                (t1 ++ Logger_warning "Snowflake load failed, falling back to API"
                    :: (Requests_get info_url :: rest2) ++ tail)).
  { intros tail. apply in_or_app. right. right. left. reflexivity. }
  assert (Hlast : forall x,
             In x (t1 ++ Logger_warning "Snowflake load failed, falling back to API"
                      :: (Requests_get info_url :: rest2) ++ [x])).
  { intros x. apply in_or_app. right. right. apply in_or_app. right.
    left. reflexivity. }
  destruct df1 as [| r1 df1]; [destruct df2 as [| r2 df2] |];
    rewrite E; cbn [trace result fst snd].
  - split; [eexists; reflexivity|].
    split; [split; [reflexivity | intros _; apply Hget]|].
    split; [intros df _ [= <-] Hne; contradiction|].
    intros _ _. split; [reflexivity|]. split; [apply Hlast|]. split.
    + rewrite forallb_app. cbn [forallb]. rewrite forallb_app.
      rewrite U1, U2. reflexivity.
    + intros ui. apply script_halted. exact E.
  - split; [eexists; reflexivity|].
    split; [split; [reflexivity | intros _; apply Hget]|].
    split; [|intros _ [=]].
    intros df _ [= <-] _. split; [reflexivity | apply Hlast].
  - split; [exists []; rewrite app_nil_r; reflexivity|].
    split; [|split; [intros df [=] | intros [=]]].
    split; [|intros [=]].
    intros Hin. rewrite forallb_forall in W1. specialize (W1 _ Hin).
    discriminate.
Qed.

(** C1 at two worlds: Snowflake down and one station in the feed, and
    both sources down. *)
Lemma load_station_data_fallback_witness :
  (result (load_station_data (live_world 0 [raw 15 10 3])) = Ret [spec_example] /\
   In (St_warning backup_message)
      (trace (load_station_data (live_world 0 [raw 15 10 3])))) /\
  (result (load_station_data dark_world) = Halt /\
   In (St_error exhausted_message) (trace (load_station_data dark_world)) /\
   script dark_world (mk_inputs 10 false)
   = (trace (load_station_data dark_world), Halt)).
Proof.
  split.
  - pose proof (load_station_data_fallback (live_world 0 [raw 15 10 3])) as H.
    cbv zeta in H. destruct H as (_ & _ & H & _).
    apply (H [spec_example]); [reflexivity | reflexivity | discriminate].
  - pose proof (load_station_data_fallback dark_world) as H.
    cbv zeta in H. destruct H as (_ & _ & _ & H).
    destruct H as (A & B & _ & C); [reflexivity | reflexivity |].
    split; [exact A|]. split; [exact B|]. apply C.
Defined.

(** ** The adapters *)

(** C8.  Neither adapter lets an exception out: each returns a table in
    every world.  When a request, the parsing, the join, the connection,
    the query or the closing fails, the table is empty and an error was
    logged; when every step succeeds, the table is the one that was
    loaded. *)
Theorem adapters_never_raise (w : world) :
  (exists df, result (load_from_api w) = Ret df) /\
  (exists df, result (load_from_snowflake w) = Ret df) /\
  (api_failure w ->
   result (load_from_api w) = Ret [] /\ diagnosed (trace (load_from_api w))) /\
  (snowflake_failure w ->
   result (load_from_snowflake w) = Ret [] /\
   diagnosed (trace (load_from_snowflake w))) /\
  (forall info status,
     station_information w = inr info -> station_status w = inr status ->
     info <> [] -> status <> [] ->
     result (load_from_api w)
     = Ret (map (calculate_demand_metrics (timestamp_now w))
                (inner_join info status))) /\
  (forall c df u,
     snowflake_connect w = inr c -> pd_read_sql w = inr df ->
     conn_close w = inr u ->
     result (load_from_snowflake w) = Ret df).
Proof.
  split; [apply load_from_api_returns|].
  split; [apply load_from_snowflake_returns|].
  rewrite load_from_api_eq, load_from_snowflake_eq.
  unfold api_failure, snowflake_failure, diagnosed.
  split; [|split; [|split]].
  - destruct (station_information w) as [e | info].
    { intros _. split; [reflexivity|]. do 2 eexists. right; left; reflexivity. }
    destruct (station_status w) as [e | status].
    { intros _. split; [reflexivity|]. do 2 eexists.
      right; right; left; reflexivity. }
    intros [[e H] | [[e H] | [H | H]]]; try discriminate;
      injection H as ->.
    + split; [reflexivity|]. do 2 eexists. right; right; left; reflexivity.
    + destruct info; (split; [reflexivity|]); do 2 eexists;
        right; right; left; reflexivity.
  - destruct (snowflake_connect w) as [e | c].
    { intros _. split; [reflexivity|]. do 2 eexists. right; left; reflexivity. }
    destruct (pd_read_sql w) as [e | df].
    { intros _. split; [reflexivity|]. do 2 eexists.
      right; right; left; reflexivity. }
    destruct (conn_close w) as [e | u].
    { intros _. split; [reflexivity|]. do 2 eexists.
      right; right; right; left; reflexivity. }
    intros [[e H] | [[e H] | [e H]]]; discriminate.
  - intros info status -> -> Hi Hs.
    destruct info; [contradiction|]. destruct status; [contradiction|].
    reflexivity.
  - intros c df u -> -> ->. reflexivity.
Qed.

(** C8 at three worlds: both sources down, the gold table with one row,
    the feed with one station. *)
Lemma adapters_never_raise_witness :
  (result (load_from_api dark_world) = Ret [] /\
   diagnosed (trace (load_from_api dark_world))) /\
  (result (load_from_snowflake dark_world) = Ret [] /\
   diagnosed (trace (load_from_snowflake dark_world))) /\
  result (load_from_snowflake (warehouse_world [spec_example]))
  = Ret [spec_example] /\
  result (load_from_api (live_world 0 [raw 15 10 3])) = Ret [spec_example].
Proof.
  destruct (adapters_never_raise dark_world) as (_ & _ & A & B & _).
  destruct (adapters_never_raise (warehouse_world [spec_example]))
    as (_ & _ & _ & _ & _ & C).
  destruct (adapters_never_raise (live_world 0 [raw 15 10 3]))
    as (_ & _ & _ & _ & D & _).
  split; [apply A; left; eexists; reflexivity|].
  split; [apply B; left; eexists; reflexivity|].
  split; [apply (C tt [spec_example] tt); reflexivity|].
  apply (D [info_of (raw 15 10 3)] [status_of (raw 15 10 3)]);
    try reflexivity; discriminate.
Defined.

(** ** Metric derivation *)

(** C2, refuted as stated.  With Snowflake down and a feed that lists one
    station without docks and with one bike, the adapter keeps the
    station; its ratios are [inf], [NaN] and [-inf], and its count of
    bikes out of service is -1. *)
Lemma derivation_guard_counterexample :
  result (load_from_api (live_world 0 [raw 0 1 0])) = Ret [zero_capacity_station] /\
  bike_utilization zero_capacity_station = PosInf /\
  dock_utilization zero_capacity_station = NaN /\
  out_of_service_ratio zero_capacity_station = NegInf /\
  out_of_service_bikes zero_capacity_station = -1 /\
  ~ ratios_defined zero_capacity_station /\
  ~ out_of_service_clamped zero_capacity_station.
Proof.
  repeat split; try reflexivity.
  - intros H. destruct (H eq_refl) as [H1 _]. discriminate.
  - intros H. unfold out_of_service_clamped in H. cbn in H. lia.
Qed.

(** C2, amended.  The derivation has no guard.  For int64 counts whose
    sum and difference do not wrap around, the count of bikes out of
    service is what the int64 subtraction stores, capacity - (bikes +
    docks), negative exactly when bikes + docks exceed the capacity.
    With a capacity other than zero the three ratios are numbers; with
    capacity zero each ratio is what pandas stores for a division by
    zero: [NaN] for a zero numerator, [inf] for a positive one, [-inf]
    for a negative one. *)
Theorem derivation_unguarded (now : Z) (m : merged_row) :
  no_wrap m ->
  let r := calculate_demand_metrics now m in
  out_of_service_bikes r
  = wrap64 (m_capacity m
            - wrap64 (m_num_bikes_available m + m_num_docks_available m)) /\
  out_of_service_bikes r
  = m_capacity m - (m_num_bikes_available m + m_num_docks_available m) /\
  (out_of_service_bikes r < 0 <->
   m_capacity m < m_num_bikes_available m + m_num_docks_available m) /\
  (m_capacity m <> 0 ->
   is_finite (bike_utilization r) = true /\
   is_finite (dock_utilization r) = true /\
   is_finite (out_of_service_ratio r) = true) /\
  (m_capacity m = 0 ->
   quotient_by_zero (num_bikes_available r) (bike_utilization r) /\
   quotient_by_zero (num_docks_available r) (dock_utilization r) /\
   quotient_by_zero (out_of_service_bikes r) (out_of_service_ratio r)).
Proof.
  intros W. cbv zeta.
  split; [cbn [calculate_demand_metrics out_of_service_bikes];
          symmetry; apply no_wrap_exact; exact W|].
  split; [reflexivity|]. split; [cbn; lia|]. split.
  - intros H. destruct (derived_populated now m H) as (A & B & C & _).
    auto.
  - intros H.
    cbn [calculate_demand_metrics bike_utilization dock_utilization
         out_of_service_ratio out_of_service_bikes num_bikes_available
         num_docks_available].
    rewrite H. rewrite !truediv_zero.
    assert (Q : forall n,
               quotient_by_zero n (if n =? 0 then NaN
                                   else if 0 <? n then PosInf else NegInf)).
    { intros n. unfold quotient_by_zero.
      destruct (Z.eqb_spec n 0); [repeat split; intros; (reflexivity || lia)|].
      destruct (Z.ltb_spec 0 n); repeat split; intros; (reflexivity || lia). }
    repeat split; apply Q.
Qed.

(** C2 amended, at the example of the specification (15 docks) and at a
    station without docks. *)
Lemma derivation_unguarded_witness :
  (is_finite (bike_utilization spec_example) = true /\
   is_finite (dock_utilization spec_example) = true /\
   is_finite (out_of_service_ratio spec_example) = true) /\
  (quotient_by_zero 1 (bike_utilization zero_capacity_station) /\
   quotient_by_zero 0 (dock_utilization zero_capacity_station) /\
   quotient_by_zero (-1) (out_of_service_ratio zero_capacity_station)).
Proof.
  split.
  - assert (W : no_wrap (raw 15 10 3)) by (unfold no_wrap, int64; cbn; lia).
    pose proof (derivation_unguarded 0 (raw 15 10 3) W) as H.
    cbv zeta in H. destruct H as (_ & _ & _ & H & _).
    apply H. discriminate.
  - assert (W : no_wrap (raw 0 1 0)) by (unfold no_wrap, int64; cbn; lia).
    pose proof (derivation_unguarded 0 (raw 0 1 0) W) as H.
    cbv zeta in H. destruct H as (_ & _ & _ & _ & H).
    apply H. reflexivity.
Defined.



(** C7.  The derived columns depend on the raw columns only, and running
    the derivation again changes none of them: on any table that went
    through it once, and on the table that [load_from_api] returns. *)
Theorem derivation_idempotent :
  (forall now now' df,
     map derived_columns (rederive now' (rederive now df))
     = map derived_columns (rederive now df)) /\
  (forall w now' df,
     result (load_from_api w) = Ret df ->
     map derived_columns (rederive now' df) = map derived_columns df) /\
  (forall now now' a b,
     m_capacity a = m_capacity b ->
     m_num_bikes_available a = m_num_bikes_available b ->
     m_num_docks_available a = m_num_docks_available b ->
     derived_columns (calculate_demand_metrics now a)
     = derived_columns (calculate_demand_metrics now' b)).
Proof.
  split; [apply rederive_idem|]. split.
  - intros w now' df H. unfold rederive. rewrite map_map.
    apply map_ext_in. intros r Hin.
    destruct (load_from_api_rows w df r H Hin) as [m ->]. reflexivity.
  - intros now now' a b Hc Hb Hd. unfold derived_columns. cbn.
    rewrite Hc, Hb, Hd. reflexivity.
Qed.

(** C7 on the table of a feed with one station, derived again at a
    later time. *)
Lemma derivation_idempotent_witness :
  map derived_columns (rederive 300 [spec_example])
  = map derived_columns [spec_example].
Proof.
  destruct derivation_idempotent as (_ & H & _).
  apply (H (live_world 0 [raw 15 10 3]) 300 [spec_example]). reflexivity.
Defined.

(** ** Visual encoding *)




(** C4, refuted as stated.  A station with 10 docks and 20 bikes has the
    colour (255, 510, 510, 200): green and blue lie above 255 and above
    red. *)
Lemma color_channels_counterexample :
  get_station_color overfull_station = inr [255; 510; 510; 200] /\
  ~ channels_in_range [255; 510; 510; 200] /\
  ~ red_dominates [255; 510; 510; 200].
Proof.
  split; [reflexivity|]. split.
  - intros H. unfold channels_in_range in H. rewrite Forall_forall in H.
    specialize (H 510). cbn in H. lia.
  - cbn. lia.
Qed.

(** C4, amended.  For a station without bikes at all, or whose bike
    utilization is a number in [0, 1] and whose out-of-service ratio is a
    number that is not negative and small enough for 255 times it not to
    overflow binary64, the colour is computed, its four channels lie in
    [0, 255], and red is at least green and blue. *)
Theorem color_channels_clamped (row : station) :
  total_bikes row = 0 \/
  (in_unit (bike_utilization row) /\
   non_negative (out_of_service_ratio row) /\
   no_overflow (out_of_service_ratio row)) ->
  exists c, get_station_color row = inr c /\
            channels_in_range c /\ red_dominates c.
Proof.
  intros H.
  destruct (Z.eq_dec (total_bikes row) 0) as [E | NE].
  - exists [200; 200; 200; 200]. split; [apply color_no_data; assumption|].
    split; [repeat constructor; lia | simpl; lia].
  - destruct H as [H | (Hu & Hr & _)]; [contradiction|].
    destruct (bike_utilization row) as [u | | |] eqn:Eu; try contradiction.
    destruct (out_of_service_ratio row) as [r | | |] eqn:Er; try contradiction.
    destruct Hu as [Hu0 Hu1]. simpl in Hr.
    destruct (color_finite row u r NE Eu Er) as (b & rb & Tb & Tr & Ec).
    destruct (scaled_unit u Hu0 Hu1) as [S0 S1].
    pose proof (truncates_bounds b _ 0 255 ltac:(lia) S0 S1 Tb) as Hb.
    assert (Hrb : 0 <= rb).
    { apply truncates_nonneg with (q := (255 * r)%Q); [|assumption].
      apply Qmult_le_0_compat; [unfold Qle; simpl; lia | assumption]. }
    exists [Z.min 255 (b + rb); b; b; 200]. split; [assumption|].
    split; [repeat constructor; lia | simpl; lia].
Qed.

(** C4 amended, at the example of the specification. *)
Lemma color_channels_clamped_witness :
  exists c, get_station_color spec_example = inr c /\
            channels_in_range c /\ red_dominates c.
Proof.
  apply (color_channels_clamped spec_example).
  right. split; [|split].
  - cbn. unfold Qle; cbn. lia.
  - cbn. unfold Qle; cbn. lia.
  - unfold no_overflow, Qle. vm_compute. discriminate.
Defined.

(** C5.  The radius follows the table [0,10) -> 3, [10,20) -> 8,
    [20,30) -> 15, [30,50) -> 20, [50,75) -> 30, [75,100) -> 40,
    [100, inf) -> 50, and is 3 when no range holds the capacity, which
    happens for negative capacities only.  It does not decrease when the
    capacity grows, and the ends of the ranges are exact. *)
Theorem get_station_radius_table :
  (forall c,
     (0 <= c < 10 -> get_station_radius c = 3) /\
     (10 <= c < 20 -> get_station_radius c = 8) /\
     (20 <= c < 30 -> get_station_radius c = 15) /\
     (30 <= c < 50 -> get_station_radius c = 20) /\
     (50 <= c < 75 -> get_station_radius c = 30) /\
     (75 <= c < 100 -> get_station_radius c = 40) /\
     (100 <= c -> get_station_radius c = 50) /\
     (find_group size_groups c = None -> get_station_radius c = 3) /\
     (find_group size_groups c = None <-> c < 0)) /\
  (forall a b, 0 <= a -> a <= b ->
               get_station_radius a <= get_station_radius b) /\
  get_station_radius 10 = 8 /\ get_station_radius 20 = 15 /\
  get_station_radius 100 = 50 /\ get_station_radius 15 = 8.
Proof.
  split.
  - intros c.
    destruct (radius_values c) as (_ & R1 & R2 & R3 & R4 & R5 & R6 & R7).
    repeat (split; [assumption|]).
    split; [|apply find_group_none].
    intros H. unfold get_station_radius. rewrite H. reflexivity.
  - split; [intros a b _ H; apply radius_mono; assumption|].
    repeat split.
Qed.

(** C5 at capacities 42, 9 and 10. *)
Lemma get_station_radius_table_witness :
  get_station_radius 42 = 20 /\ get_station_radius 9 <= get_station_radius 10.
Proof.
  destruct get_station_radius_table as (V & Mono & _).
  destruct (V 42) as (_ & _ & _ & R & _).
  split; [apply R; lia | apply Mono; lia].
Defined.

(** ** The filter and the counts *)

(** C9, refuted as stated.  With Snowflake down, a feed that lists one
    station without docks and without bikes, and the slider at 0, the
    station is drawn on the map (in light gray, radius 3) although its
    bike utilization is [NaN]. *)
Lemma presentation_populated_counterexample :
  In (St_pydeck_chart [(vacant_station, [200; 200; 200; 200], 3)])
     (trace (script (live_world 0 [raw 0 0 0]) (mk_inputs 0 false))) /\
  bike_utilization vacant_station = NaN /\
  populated vacant_station = false /\
  ~ presentation_invariant (live_world 0 [raw 0 0 0]) (mk_inputs 0 false).
Proof.
  assert (H : In (St_pydeck_chart [(vacant_station, [200; 200; 200; 200], 3)])
     (trace (script (live_world 0 [raw 0 0 0]) (mk_inputs 0 false)))).
  { vm_compute. intuition. }
  split; [exact H|]. split; [reflexivity|]. split; [reflexivity|].
  intros Inv. destruct (Inv _ vacant_station H) as [P _].
  - left. reflexivity.
  - discriminate.
Qed.

(** C9, amended.  The filter is inclusive: for every threshold the
    filtered table holds exactly the rows with capacity >= t, so the
    threshold 10 keeps the last two of the capacities 5, 10, 20.  Every
    row shown on the map or in the raw table has capacity >= t.  When the
    table comes from the live feed and t >= 1, every row shown has its
    three ratios finite, hence populated. *)
Theorem filter_min_capacity_inclusive :
  (forall t df r,
     In r (filter_min_capacity t df) <-> In r df /\ t <= capacity r) /\
  (forall a b c,
     capacity a = 5 -> capacity b = 10 -> capacity c = 20 ->
     filter_min_capacity 10 [a; b; c] = [b; c]) /\
  (forall w ui e row,
     In e (trace (script w ui)) -> In row (presented e) ->
     min_capacity ui <= capacity row) /\
  (forall w ui e row,
     result (load_from_snowflake w) = Ret [] -> 1 <= min_capacity ui ->
     In e (trace (script w ui)) -> In row (presented e) ->
     is_finite (bike_utilization row) = true /\
     is_finite (dock_utilization row) = true /\
     is_finite (out_of_service_ratio row) = true /\
     populated row = true).
Proof.
  assert (P : forall w ui e row,
             In e (trace (script w ui)) -> In row (presented e) ->
             exists df, result (load_station_data w) = Ret df /\
                        In row df /\ min_capacity ui <= capacity row).
  { intros w ui e row He Hr.
    destruct (script_downstream w ui e He (presented_downstream e row Hr))
      as (df & color & Hd & Hp).
    exists df. split; [assumption|].
    apply filter_min_capacity_In. eapply page_presented; eauto. }
  split; [apply filter_min_capacity_In|]. split; [|split].
  - intros a b c Ha Hb Hc. unfold filter_min_capacity. cbn.
    rewrite Ha, Hb, Hc. reflexivity.
  - intros w ui e row He Hr.
    destruct (P w ui e row He Hr) as (df & _ & _ & Hc). exact Hc.
  - intros w ui e row Hw Ht He Hr.
    destruct (P w ui e row He Hr) as (df & Hd & Hin & Hc).
    destruct (load_from_api_returns w) as [df2 R2].
    destruct (load_from_snowflake w) as [t1 o1] eqn:E1.
    destruct (load_from_api w) as [t2 o2] eqn:E2.
    cbn [result snd] in Hw, R2. subst o1 o2.
    rewrite (load_station_data_eq w t1 [] t2 df2 E1 E2) in Hd.
    destruct df2 as [| r2 df2]; [discriminate|].
    cbn [result snd] in Hd. injection Hd as <-.
    assert (R : result (load_from_api w) = Ret (r2 :: df2))
      by (rewrite E2; reflexivity).
    destruct (load_from_api_rows w _ row R Hin) as [m ->].
    apply derived_populated. cbn in Hc. lia.
Qed.

(** C9 amended, at a feed with a station of 15 docks and the slider at
    its default 10: the station drawn has capacity >= 10 and its ratios
    are finite. *)
Lemma filter_min_capacity_inclusive_witness :
  (In spec_example (filter_min_capacity 10 [spec_example]) <->
   In spec_example [spec_example] /\ 10 <= capacity spec_example) /\
  filter_min_capacity 10 [quarter_station; spec_example] = [spec_example] /\
  10 <= capacity spec_example /\
  (is_finite (bike_utilization spec_example) = true /\
   is_finite (dock_utilization spec_example) = true /\
   is_finite (out_of_service_ratio spec_example) = true /\
   populated spec_example = true).
Proof.
  destruct filter_min_capacity_inclusive as (A & _ & C & D).
  assert (H : In (St_pydeck_chart [(spec_example, [204; 170; 170; 200], 8)])
     (trace (script (live_world 0 [raw 15 10 3]) (mk_inputs 10 false)))).
  { vm_compute. intuition. }
  split; [apply A|]. split; [reflexivity|]. split.
  - apply (C (live_world 0 [raw 15 10 3]) (mk_inputs 10 false)
             (St_pydeck_chart [(spec_example, [204; 170; 170; 200], 8)])
             spec_example H).
    left. reflexivity.
  - apply (D (live_world 0 [raw 15 10 3]) (mk_inputs 10 false)
             (St_pydeck_chart [(spec_example, [204; 170; 170; 200], 8)])
             spec_example); try exact H.
    + reflexivity.
    + cbn. lia.
    + left. reflexivity.
Defined.

(** A run of the script that reaches its end has sent the whole page,
    with the colours of the filtered rows. *)
Lemma script_page w ui df :
  result (load_station_data w) = Ret df ->
  result (script w ui) = Ret tt ->
  exists t color, trace (script w ui) = t ++ page df ui color.
Proof.
  intros Hd Hs.
  destruct (load_station_data_cases w)
    as [(t & df' & Hne & E & U) | (t & E & U)];
    rewrite E in Hd; cbn [result snd] in Hd; [|discriminate].
  injection Hd as ->.
  rewrite (script_loaded w ui t df E Hne) in Hs |- *.
  cbn [trace result fst snd] in Hs |- *.
  rewrite present_eq in Hs |- *.
  destruct (result (apply_color (filter_min_capacity (min_capacity ui) df)))
    as [color | e |]; cbn [trace result fst snd] in Hs |- *;
    try discriminate.
  exists t, color. reflexivity.
Qed.

(** C10.  On a run of the script that reaches its end, with at least one
    station passing the filter, the page shows the three counts, and
    they are the numbers of empty stations, of full stations and of
    stations with bikes out of service in the filtered table, not in the
    loaded table; the script shows no other count.  A station whose
    capacity is below the threshold changes none of the three, whatever
    its bikes and docks. *)
Theorem summary_counts_over_filtered :
  (forall w ui df n_empty n_full n_out,
     result (load_station_data w) = Ret df ->
     filter_min_capacity (min_capacity ui) df <> [] ->
     result (script w ui) = Ret tt ->
     summary_counts (filter_min_capacity (min_capacity ui) df)
     = (n_empty, n_full, n_out) ->
     In (St_metric "Empty Stations" n_empty) (trace (script w ui)) /\
     In (St_metric "Full Stations" n_full) (trace (script w ui)) /\
     In (St_metric "Stations with Out-of-Service Bikes" n_out)
        (trace (script w ui))) /\
  (forall w ui label n,
     In (St_metric label n) (trace (script w ui)) ->
     exists df,
       result (load_station_data w) = Ret df /\
       let filtered_df := filter_min_capacity (min_capacity ui) df in
       (label = "Empty Stations"%string /\
        n = List.length (empty_stations filtered_df)) \/
       (label = "Full Stations"%string /\
        n = List.length (full_stations filtered_df)) \/
       (label = "Stations with Out-of-Service Bikes"%string /\
        n = List.length (out_of_service filtered_df))) /\
  (forall t df1 df2 r,
     capacity r < t ->
     summary_counts (filter_min_capacity t (df1 ++ r :: df2))
     = summary_counts (filter_min_capacity t (df1 ++ df2))).
Proof.
  split; [|split].
  - intros w ui df n_empty n_full n_out Hd _ Hs Hc.
    destruct (script_page w ui df Hd Hs) as (t & color & ->).
    unfold summary_counts in Hc. injection Hc as <- <- <-.
    unfold page.
    repeat split; apply in_or_app; right; apply in_or_app; left; cbn; auto 6.
  - intros w ui label n He.
    destruct (script_downstream w ui _ He eq_refl) as (df & color & Hd & Hp).
    exists df. split; [assumption|].
    eapply page_metric; eauto.
  - intros t df1 df2 r H. unfold filter_min_capacity.
    rewrite !filter_app. cbn [filter].
    replace (t <=? capacity r) with false; [reflexivity|].
    symmetry. apply Z.leb_gt. exact H.
Qed.

(** C10 with a gold table of two rows and the threshold 10: the station
    without docks, which has no bikes and no free docks, is counted
    neither as empty nor as full on the page, and leaving it out of the
    table changes no count. *)
Lemma summary_counts_over_filtered_witness :
  (In (St_metric "Empty Stations" 0)
      (trace (script (warehouse_world [vacant_station; spec_example])
                     (mk_inputs 10 false))) /\
   In (St_metric "Full Stations" 0)
      (trace (script (warehouse_world [vacant_station; spec_example])
                     (mk_inputs 10 false))) /\
   In (St_metric "Stations with Out-of-Service Bikes" 1)
      (trace (script (warehouse_world [vacant_station; spec_example])
                     (mk_inputs 10 false)))) /\
  summary_counts (filter_min_capacity 10 [vacant_station; spec_example])
  = summary_counts (filter_min_capacity 10 [spec_example]) /\
  summary_counts [vacant_station; spec_example] = (1%nat, 1%nat, 1%nat).
Proof.
  destruct summary_counts_over_filtered as (A & _ & C).
  split; [|split].
  - apply (A (warehouse_world [vacant_station; spec_example])
             (mk_inputs 10 false) [vacant_station; spec_example]);
      try reflexivity.
    discriminate.
  - apply (C 10 [] [spec_example] vacant_station). reflexivity.
  - reflexivity.
Defined.

(** * Further properties of the script

    What [DataFrame.apply] returns on a frame without rows depends on the
    version of pandas and is outside the embedding; the properties below
    that say when the page is drawn or breaks are stated for a filtered
    table with at least one row. *)

(** ** The join of the two feed lists *)

Lemma inner_join_member info status m :
  In m (inner_join info status) <->
  exists i s, In i info /\ In s status /\
              info_station_id i = status_station_id s /\ m = join i s.
Proof.
  unfold inner_join. rewrite in_flat_map. split.
  - intros (i & Hi & Hm). apply in_map_iff in Hm.
    destruct Hm as (s & <- & Hs). apply filter_In in Hs.
    destruct Hs as [Hs He]. apply String.eqb_eq in He.
    exists i, s. auto.
  - intros (i & s & Hi & Hs & He & ->). exists i. split; [assumption|].
    apply in_map. apply filter_In. split; [assumption|].
    apply String.eqb_eq. assumption.
Qed.

Lemma filter_unique_key {A} (f : A -> string) (k : string) (l : list A) :
  NoDup (map f l) ->
  (List.length (filter (fun s => String.eqb k (f s)) l) <= 1)%nat.
Proof.
  induction l as [| a l IH]; intros H; [cbn; lia|].
  cbn [map] in H. inversion H as [| ? ? Hnot Hrest]; subst.
  cbn [filter]. destruct (String.eqb_spec k (f a)) as [E | NE].
  - cbn [List.length].
    assert (Hnil : filter (fun s => String.eqb k (f s)) l = []).
    { destruct (filter (fun s => String.eqb k (f s)) l) as [| b rest] eqn:Ef;
        [reflexivity|].
      assert (Hb : In b (filter (fun s => String.eqb k (f s)) l))
        by (rewrite Ef; left; reflexivity).
      apply filter_In in Hb. destruct Hb as [Hb Hk].
      apply String.eqb_eq in Hk. exfalso. apply Hnot.
      rewrite <- E, Hk. apply in_map. assumption. }
    rewrite Hnil. cbn. lia.
  - apply IH. assumption.
Qed.

(** With station ids that are unique in both lists, the join has no
    station twice and at most as many rows as either list. *)
Lemma inner_join_unique info status :
  NoDup (map info_station_id info) ->
  NoDup (map status_station_id status) ->
  NoDup (map m_station_id (inner_join info status)) /\
  (List.length (inner_join info status) <= List.length info)%nat /\
  (List.length (inner_join info status) <= List.length status)%nat.
Proof.
  intros Hi Hs.
  assert (A : NoDup (map m_station_id (inner_join info status)) /\
              (List.length (inner_join info status) <= List.length info)%nat).
  { induction info as [| i info IH]; [split; [constructor | cbn; lia]|].
    cbn [map] in Hi. inversion Hi as [| ? ? Hnot Hrest]; subst.
    destruct (IH Hrest) as [IH1 IH2].
    change (inner_join (i :: info) status)
      with (map (join i)
                (filter (fun s => String.eqb (info_station_id i)
                                             (status_station_id s)) status)
            ++ inner_join info status).
    pose proof (filter_unique_key status_station_id (info_station_id i)
                                  status Hs) as Hlen.
    destruct (filter (fun s => String.eqb (info_station_id i)
                                          (status_station_id s)) status)
      as [| s [| s' rest]]; cbn [List.length] in Hlen; try lia.
    - cbn. split; [assumption | lia].
    - cbn. split; [|lia]. constructor; [|assumption].
      intros Hin. apply Hnot. apply in_map_iff in Hin.
      destruct Hin as (m & Em & Hm). rewrite <- Em.
      apply inner_join_member in Hm.
      destruct Hm as (i' & s'' & Hi' & _ & _ & ->). cbn.
      apply in_map. assumption. }
  destruct A as [A1 A2]. split; [assumption|]. split; [assumption|].
  rewrite <- (length_map m_station_id (inner_join info status)).
  rewrite <- (length_map status_station_id status).
  apply NoDup_incl_length; [assumption|].
  intros k Hk. apply in_map_iff in Hk. destruct Hk as (m & <- & Hm).
  apply inner_join_member in Hm. destruct Hm as (i & s & _ & Hs' & He & ->).
  cbn. rewrite He. apply in_map. assumption.
Qed.

(** X1.  The merge of line 40 is an inner join on [station_id]: a row is
    in the result exactly when it joins an information row and a status
    row with the same id, its capacity is that of the information row and
    its counts are those of the status row; a station that has no status
    row, or no information row, is in no row of the result. *)
Theorem inner_join_In (info : list info_row) (status : list status_row) :
  (forall m,
     In m (inner_join info status) <->
     exists i s, In i info /\ In s status /\
                 info_station_id i = status_station_id s /\
                 m_station_id m = info_station_id i /\
                 m_capacity m = info_capacity i /\
                 m_num_bikes_available m = status_num_bikes_available s /\
                 m_num_docks_available m = status_num_docks_available s /\
                 m = join i s) /\
  (forall m, In m (inner_join info status) ->
             In (m_station_id m) (map info_station_id info) /\
             In (m_station_id m) (map status_station_id status)).
Proof.
  split.
  - intros m. rewrite inner_join_member. split.
    + intros (i & s & Hi & Hs & He & ->). exists i, s.
      repeat (split; [first [assumption | reflexivity]|]). reflexivity.
    + intros (i & s & Hi & Hs & He & _ & _ & _ & _ & ->).
      exists i, s. auto.
  - intros m Hm. apply inner_join_member in Hm.
    destruct Hm as (i & s & Hi & Hs & He & ->). cbn. split.
    + apply in_map. assumption.
    + rewrite He. apply in_map. assumption.
Qed.

(** ** The two adapters *)

Lemma load_from_snowflake_adapter w :
  forallb adapter_event (trace (load_from_snowflake w)) = true.
Proof. snowflake_cases w; reflexivity. Qed.

Lemma load_from_api_adapter w :
  forallb adapter_event (trace (load_from_api w)) = true.
Proof. api_cases w; reflexivity. Qed.

Lemma adapter_event_not e t :
  forallb adapter_event t = true -> adapter_event e = false -> ~ In e t.
Proof.
  intros H He Hin. rewrite forallb_forall in H. specialize (H e Hin).
  congruence.
Qed.

(** X2.  The warehouse adapter always tries to connect; it sends the
    query exactly when the connection succeeded, and it closes the
    connection exactly when the query returned: after a failed query the
    connection is left open. *)
Theorem snowflake_connection_lifecycle (w : world) :
  let t := trace (load_from_snowflake w) in
  In Snowflake_connect t /\
  (In Pd_read_sql t <-> exists c, snowflake_connect w = inr c) /\
  (In Conn_close t <->
   (exists c, snowflake_connect w = inr c) /\
   (exists df, pd_read_sql w = inr df)).
Proof.
  cbv zeta. snowflake_cases w; cbn [trace fst].
  - split; [left; reflexivity|]. split; split.
    + intros [H | [H | []]]; discriminate.
    + intros [c H]; discriminate.
    + intros [H | [H | []]]; discriminate.
    + intros [[c H] _]; discriminate.
  - split; [left; reflexivity|]. split; split.
    + intros _. eexists; reflexivity.
    + intros _. right; left; reflexivity.
    + intros [H | [H | [H | []]]]; discriminate.
    + intros [_ [df H]]; discriminate.
  - split; [left; reflexivity|]. split; split.
    + intros _. eexists; reflexivity.
    + intros _. right; left; reflexivity.
    + intros _. split; eexists; reflexivity.
    + intros _. right; right; left; reflexivity.
  - split; [left; reflexivity|]. split; split.
    + intros _. eexists; reflexivity.
    + intros _. right; left; reflexivity.
    + intros _. split; eexists; reflexivity.
    + intros _. right; right; left; reflexivity.
Qed.

(** X3.  When the query returned rows and closing the connection raises,
    the warehouse adapter drops the rows: it returns the empty table and
    logs the error, so the orchestration falls back to the feed. *)
Theorem close_failure_discards_rows (w : world) (c : unit) (df : DataFrame)
        (e : exn) :
  snowflake_connect w = inr c -> pd_read_sql w = inr df ->
  conn_close w = inl e ->
  load_from_snowflake w
  = ([Snowflake_connect; Pd_read_sql; Conn_close;
      Logger_error "Error loading data from Snowflake: " e], Ret []) /\
  In (Requests_get info_url) (trace (load_station_data w)).
Proof.
  intros Hc Hq He.
  assert (E1 : load_from_snowflake w
               = ([Snowflake_connect; Pd_read_sql; Conn_close;
                   Logger_error "Error loading data from Snowflake: " e],
                  Ret [])).
  { rewrite load_from_snowflake_eq, Hc, Hq, He. reflexivity. }
  split; [exact E1|].
  destruct (load_from_api_returns w) as [df2 R2].
  destruct (load_from_api_first w) as [rest F].
  destruct (load_from_api w) as [t2 o2] eqn:E2.
  cbn [trace result fst snd] in R2, F. subst o2 t2.
  rewrite (load_station_data_eq w _ [] _ df2 E1 E2).
  destruct df2; cbn; auto 10.
Qed.

(** X3 at a world with the example station in the gold table. *)
Lemma close_failure_discards_rows_witness :
  load_from_snowflake (unclosed_world [spec_example])
  = ([Snowflake_connect; Pd_read_sql; Conn_close;
      Logger_error "Error loading data from Snowflake: "
                   (Exception "close failed")], Ret []) /\
  In (Requests_get info_url)
     (trace (load_station_data (unclosed_world [spec_example]))).
Proof.
  apply (close_failure_discards_rows (unclosed_world [spec_example]) tt
                                     [spec_example]); reflexivity.
Defined.

(** X4.  The live-feed adapter requests the station information first;
    it requests the station status exactly when the first request and
    its parsing succeeded, and after a failed first request it does
    nothing but log the error. *)
Theorem feed_requests_in_order (w : world) :
  let t := trace (load_from_api w) in
  (exists rest, t = Requests_get info_url :: rest) /\
  (In (Requests_get status_url) t <->
   exists info, station_information w = inr info) /\
  (forall e, station_information w = inl e ->
     t = [Requests_get info_url;
          Logger_error "Error loading data from API: " e]).
Proof.
  cbv zeta. split; [apply load_from_api_first|].
  api_cases w; cbn [trace fst].
  1: { split; [split|].
       - intros [H | [H | []]]; discriminate.
       - intros [x H]; discriminate.
       - intros x [= <-]. reflexivity. }
  all: split; [split; [intros _; eexists; reflexivity
                      | intros _; right; left; reflexivity]
              | intros x H; discriminate].
Qed.

(** X5.  The table of the live-feed adapter is empty exactly when a
    request fails, one of the two lists is empty, or no station id occurs
    in both lists. *)
Theorem load_from_api_empty_iff (w : world) :
  result (load_from_api w) = Ret [] <->
  api_failure w \/
  exists info status,
    station_information w = inr info /\ station_status w = inr status /\
    inner_join info status = [].
Proof.
  unfold api_failure. api_cases w; cbn [result snd]; split;
    try (intros _; left; eauto 6; fail).
  all: try (intros _; reflexivity).
  - intros H. injection H as H. apply map_eq_nil in H.
    right. do 2 eexists. split; [reflexivity|]. split; [reflexivity|]. exact H.
  - intros [[[x H] | [[x H] | [H | H]]] | (info' & status' & H1 & H2 & H3)];
      try discriminate.
    injection H1 as <-. injection H2 as <-. rewrite H3. reflexivity.
Qed.

(** X6.  When both lists of the feed have stations and no id occurs in
    both, the adapter returns the empty table without any diagnostic: it
    logs the success message and no error. *)
Theorem load_from_api_silent_empty (w : world)
        (info : list info_row) (status : list status_row) :
  station_information w = inr info -> station_status w = inr status ->
  info <> [] -> status <> [] ->
  (forall i s, In i info -> In s status ->
               info_station_id i <> status_station_id s) ->
  load_from_api w
  = ([Requests_get info_url; Requests_get status_url;
      Logger_info "Successfully loaded data from GBFS API"], Ret []) /\
  forall msg e, ~ In (Logger_error msg e) (trace (load_from_api w)).
Proof.
  intros Ei Es Hi Hs Hd.
  assert (J : inner_join info status = []).
  { destruct (inner_join info status) as [| m rest] eqn:E; [reflexivity|].
    assert (Hm : In m (inner_join info status)) by (rewrite E; left; reflexivity).
    apply inner_join_member in Hm.
    destruct Hm as (i & s & Hi' & Hs' & He & _).
    destruct (Hd i s Hi' Hs' He). }
  rewrite load_from_api_eq, Ei, Es.
  destruct info as [| i info']; [contradiction|].
  destruct status as [| s status']; [contradiction|].
  rewrite J. split; [reflexivity|].
  intros msg e [H | [H | [H | []]]]; discriminate.
Qed.

(** X6 at a feed whose information names station a and whose status
    names station b; the page then stops with the terminal error. *)
Lemma load_from_api_silent_empty_witness :
  load_from_api mismatched_world
  = ([Requests_get info_url; Requests_get status_url;
      Logger_info "Successfully loaded data from GBFS API"], Ret []) /\
  result (script mismatched_world (mk_inputs 10 false)) = Halt.
Proof.
  split; [|reflexivity].
  eapply (load_from_api_silent_empty mismatched_world); try reflexivity;
    try discriminate.
  intros i s [<- | []] [<- | []]. discriminate.
Defined.

(** X7.  In the table that the live-feed adapter returns, every row
    carries the one time stamp taken at the fetch; and when the station
    ids are unique in both lists of the feed, they are unique in the
    table, which has at most as many rows as either list. *)
Theorem load_from_api_table (w : world) (df : DataFrame) :
  result (load_from_api w) = Ret df ->
  (forall r, In r df -> last_reported r = timestamp_now w) /\
  (forall info status,
     station_information w = inr info -> station_status w = inr status ->
     NoDup (map info_station_id info) ->
     NoDup (map status_station_id status) ->
     NoDup (map station_id df) /\
     (List.length df <= List.length info)%nat /\
     (List.length df <= List.length status)%nat).
Proof.
  intros H. split.
  - intros r Hin. destruct (load_from_api_rows w df r H Hin) as [m ->].
    reflexivity.
  - intros info status Ei Es Ni Ns.
    destruct (inner_join_unique info status Ni Ns) as (U & L1 & L2).
    rewrite load_from_api_eq, Ei, Es in H.
    destruct info as [| i info'], status as [| s status'];
      cbn [result snd] in H; injection H as <-;
      try (split; [constructor | cbn; split; lia]).
    rewrite length_map, map_map.
    split; [|split; assumption].
    erewrite map_ext; [exact U|]. intros m. reflexivity.
Qed.

(** X7 at a feed with two stations, fetched at time 7. *)
Lemma load_from_api_table_witness :
  exists df,
    result (load_from_api two_station_world) = Ret df /\
    (forall r, In r df -> last_reported r = 7) /\
    NoDup (map station_id df) /\ (List.length df <= 2)%nat.
Proof.
  eexists. split; [reflexivity|].
  pose proof (load_from_api_table two_station_world _ eq_refl) as [T U].
  split; [exact T|].
  edestruct U as (N & L & _); try reflexivity.
  - cbn. repeat constructor; cbn; intuition discriminate.
  - cbn. repeat constructor; cbn; intuition discriminate.
  - split; [exact N | exact L].
Defined.

(** ** The orchestration *)

(** One run of the orchestration: the two adapters' answers, and the
    three ways in which it ends. *)
Lemma load_station_data_run w :
  exists t1 df1 t2 df2,
    load_from_snowflake w = (t1, Ret df1) /\
    load_from_api w = (t2, Ret df2) /\
    forallb adapter_event t1 = true /\
    forallb adapter_event t2 = true /\
    load_station_data w =
    match df1, df2 with
    | _ :: _, _ => (t1, Ret df1)
    | [], _ :: _ =>
      (t1 ++ Logger_warning "Snowflake load failed, falling back to API"
          :: t2 ++ [St_warning backup_message], Ret df2)
    | [], [] =>
      (t1 ++ Logger_warning "Snowflake load failed, falling back to API"
          :: t2 ++ [St_error exhausted_message], Halt)
    end.
Proof.
  destruct (load_from_snowflake_returns w) as [df1 R1].
  destruct (load_from_api_returns w) as [df2 R2].
  pose proof (load_from_snowflake_adapter w) as A1.
  pose proof (load_from_api_adapter w) as A2.
  destruct (load_from_snowflake w) as [t1 o1] eqn:E1.
  destruct (load_from_api w) as [t2 o2] eqn:E2.
  cbn [trace result fst snd] in *. subst o1 o2.
  exists t1, df1, t2, df2. repeat (split; [first [reflexivity | assumption]|]).
  apply load_station_data_eq; assumption.
Qed.

(** An event that is neither of an adapter nor the fallback log line is
    the last event of a fallback. *)
Lemma fallback_trace_last t1 t2 e x :
  forallb adapter_event t1 = true -> forallb adapter_event t2 = true ->
  adapter_event e = false ->
  e <> Logger_warning "Snowflake load failed, falling back to API" ->
  In e (t1 ++ Logger_warning "Snowflake load failed, falling back to API"
           :: t2 ++ [x]) ->
  e = x.
Proof.
  intros A1 A2 He Hw H. apply in_app_or in H. destruct H as [H | H].
  - destruct (adapter_event_not e t1 A1 He H).
  - destruct H as [H | H]; [congruence|].
    apply in_app_or in H. destruct H as [H | [H | []]]; [|congruence].
    destruct (adapter_event_not e t2 A2 He H).
Qed.

Lemma fallback_trace_has_last t1 t2 (x : event) :
  In x (t1 ++ Logger_warning "Snowflake load failed, falling back to API"
           :: t2 ++ [x]).
Proof.
  apply in_or_app. right. right. apply in_or_app. right. left. reflexivity.
Qed.

Lemma page_downstream df ui color e :
  In e (page df ui color) -> downstream e = true.
Proof.
  unfold page. intros He.
  apply in_app_or in He. destruct He as [He | He].
  - destruct He as [<- | [<- | [<- | [<- | [<- | []]]]]]; reflexivity.
  - apply in_app_or in He. destruct He as [He | He].
    + destruct (negb (empty df)); [|contradiction].
      destruct He as [<- | []]. reflexivity.
    + destruct (show_raw_data ui); [|contradiction].
      destruct He as [<- | []]. reflexivity.
Qed.

(** X8.  The messages of the orchestration tell its three outcomes
    apart.  With rows from the warehouse, the run is the warehouse
    adapter's run and nothing else: no feed request, no message.  The
    backup warning is shown exactly when the warehouse table is empty and
    the feed's is not; the terminal error exactly when both are empty.
    A table that the orchestration returns always has rows. *)
Theorem load_station_data_signals (w : world) :
  let warehouse := load_from_snowflake w in
  let live := load_from_api w in
  let run := load_station_data w in
  (result warehouse <> Ret [] -> run = warehouse) /\
  (In (St_warning backup_message) (trace run) <->
   result warehouse = Ret [] /\ result live <> Ret []) /\
  (In (St_error exhausted_message) (trace run) <->
   result warehouse = Ret [] /\ result live = Ret []) /\
  (forall df, result run = Ret df -> df <> []).
Proof.
  cbv zeta.
  destruct (load_station_data_run w)
    as (t1 & df1 & t2 & df2 & E1 & E2 & A1 & A2 & E).
  rewrite E, E1, E2. clear E E1 E2.
  pose proof (fallback_trace_last t1 t2) as Hin.
  pose proof (fallback_trace_has_last t1 t2) as Hlast.
  destruct df1 as [| r1 df1]; [destruct df2 as [| r2 df2] |];
    cbn [trace result fst snd].
  - split; [intros H; contradiction|]. split; [|split].
    + split; [|intros [_ H]; contradiction].
      intros H. apply Hin in H; try assumption;
        [discriminate | reflexivity | discriminate].
    + split; [intros _; split; reflexivity | intros _; apply Hlast].
    + intros df [=].
  - split; [intros H; contradiction|]. split; [|split].
    + split; [intros _; split; [reflexivity | discriminate]
             | intros _; apply Hlast].
    + split; [|intros [_ [=]]].
      intros H. apply Hin in H; try assumption;
        [discriminate | reflexivity | discriminate].
    + intros df [= <-]. discriminate.
  - split; [reflexivity|]. split; [|split].
    + split; [|intros [[=] _]].
      intros H. exfalso. eapply adapter_event_not; [exact A1 | | exact H].
      reflexivity.
    + split; [|intros [[=] _]].
      intros H. exfalso. eapply adapter_event_not; [exact A1 | | exact H].
      reflexivity.
    + intros df [= <-]. discriminate.
Qed.

(** X9.  The only error message that the script can show is the one of
    the orchestration, after both adapters returned empty tables, and
    the script then stops.  The message of the second emptiness check
    (lines 118-120) is never shown: that check cannot fire. *)
Theorem only_exhausted_error (w : world) (ui : inputs) (msg : string) :
  In (St_error msg) (trace (script w ui)) ->
  msg = exhausted_message /\
  msg <> "Unable to load station data. Please try again later."%string /\
  result (load_from_snowflake w) = Ret [] /\
  result (load_from_api w) = Ret [] /\
  result (script w ui) = Halt.
Proof.
  intros H.
  destruct (load_station_data_run w)
    as (t1 & df1 & t2 & df2 & E1 & E2 & A1 & A2 & E).
  rewrite E1, E2. cbn [result snd].
  assert (P : forall df, ~ In (St_error msg) (trace (present df ui))).
  { intros df Hp. destruct (present_page df ui _ Hp) as [color Hc].
    apply page_downstream in Hc. discriminate. }
  destruct df1 as [| r1 df1]; [destruct df2 as [| r2 df2] |].
  - rewrite (script_halted w ui _ E) in H |- *. cbn [trace result fst snd] in *.
    apply fallback_trace_last in H; try assumption;
      [|reflexivity | discriminate].
    injection H as ->. repeat split; try reflexivity. discriminate.
  - rewrite (script_loaded w ui _ _ E) in H by discriminate.
    cbn [trace fst] in H. apply in_app_or in H. destruct H as [H | H].
    + apply fallback_trace_last in H; try assumption;
        [discriminate | reflexivity | discriminate].
    + destruct (P _ H).
  - rewrite (script_loaded w ui _ _ E) in H by discriminate.
    cbn [trace fst] in H. apply in_app_or in H. destruct H as [H | H].
    + destruct (adapter_event_not (St_error msg) t1 A1 eq_refl H).
    + destruct (P _ H).
Qed.

(** X9 at the world in which neither source answers. *)
Lemma only_exhausted_error_witness :
  exhausted_message = exhausted_message /\
  exhausted_message <> "Unable to load station data. Please try again later."%string /\
  result (load_from_snowflake dark_world) = Ret [] /\
  result (load_from_api dark_world) = Ret [] /\
  result (script dark_world (mk_inputs 10 false)) = Halt.
Proof.
  apply (only_exhausted_error dark_world (mk_inputs 10 false)).
  vm_compute. intuition.
Defined.

(** ** When the page is drawn and when it breaks *)

(** The colour function raises exactly for a station with bikes and a
    ratio that is not a number. *)
Lemma color_raises_iff row :
  (exists e, get_station_color row = inl e) <->
  total_bikes row <> 0 /\
  (is_finite (bike_utilization row) = false \/
   is_finite (out_of_service_ratio row) = false).
Proof.
  split.
  - intros [e He].
    destruct (Z.eq_dec (total_bikes row) 0) as [E | NE].
    + rewrite (color_no_data row E) in He. discriminate.
    + split; [assumption|].
      destruct (bike_utilization row) as [u | | |] eqn:Eu; auto.
      destruct (out_of_service_ratio row) as [r | | |] eqn:Er; auto.
      destruct (color_finite row u r NE Eu Er) as (b & rb & _ & _ & Ec).
      rewrite Ec in He. discriminate.
  - intros [NE H]. apply color_not_finite; assumption.
Qed.

Lemma apply_color_cons row rest :
  apply_color (row :: rest) =
  match get_station_color row with
  | inl e => ([], Raise e)
  | inr c =>
    match result (apply_color rest) with
    | Ret cs => ([], Ret (c :: cs))
    | Raise e => ([], Raise e)
    | Halt => ([], Halt)
    end
  end.
Proof.
  cbn [apply_color]. destruct (get_station_color row) as [e | c];
    [reflexivity|].
  cbn [lift]. unfold ret at 1. rewrite bind_ret_eq. cbn [app].
  pose proof (apply_color_trace rest) as Ht.
  destruct (apply_color rest) as [t [cs | e |]]; cbn in Ht |- *;
    subst; reflexivity.
Qed.

(** The column of colours, when the loop ends, has the colour of every
    row, in the order of the rows. *)
Lemma apply_color_ret df cs :
  result (apply_color df) = Ret cs <->
  Forall2 (fun row c => get_station_color row = inr c) df cs.
Proof.
  revert cs. induction df as [| row rest IH]; intros cs.
  - cbn. split.
    + intros [= <-]. constructor.
    + intros H. inversion H. reflexivity.
  - rewrite apply_color_cons.
    destruct (get_station_color row) as [e | c] eqn:Ec.
    + split; [discriminate|]. intros H. inversion H; subst. congruence.
    + destruct (result (apply_color rest)) as [cs' | e |] eqn:Er;
        cbn [result snd].
      * split.
        -- intros [= <-]. constructor; [assumption|]. apply IH. reflexivity.
        -- intros H. inversion H as [| ? c' ? cs'' Hc Hrest]; subst.
           apply IH in Hrest. injection Hrest as <-. congruence.
      * split; [discriminate|].
        intros H. inversion H as [| ? c' ? cs'' Hc Hrest]; subst.
        apply IH in Hrest. discriminate.
      * split; [discriminate|].
        intros H. inversion H as [| ? c' ? cs'' Hc Hrest]; subst.
        apply IH in Hrest. discriminate.
Qed.

Lemma apply_color_outcome df :
  (exists cs, result (apply_color df) = Ret cs) \/
  (exists e row, result (apply_color df) = Raise e /\ In row df /\
                 get_station_color row = inl e).
Proof.
  induction df as [| row rest IH]; [left; eexists; reflexivity|].
  rewrite apply_color_cons.
  destruct (get_station_color row) as [e | c] eqn:Ec.
  - right. exists e, row. repeat split; [left; reflexivity | assumption].
  - destruct IH as [[cs H] | (e & r & H & Hin & Hr)]; rewrite H.
    + left. eexists; reflexivity.
    + right. exists e, r. repeat split; [right; assumption | assumption].
Qed.

Lemma apply_color_all_ok df :
  (forall row, In row df -> exists c, get_station_color row = inr c) <->
  exists cs, result (apply_color df) = Ret cs.
Proof.
  split.
  - intros H. destruct (apply_color_outcome df)
      as [Hok | (e & row & Hr & Hin & He)]; [assumption|].
    destruct (H row Hin) as [c Hc]. congruence.
  - intros [cs H] row Hin. apply apply_color_ret in H.
    revert row Hin. induction H as [| r c rest cs' Hc _ IH]; intros row [].
    + subst. eauto.
    + auto.
Qed.

Lemma script_result w ui t df :
  load_station_data w = (t, Ret df) -> df <> [] ->
  result (script w ui) =
  match result (apply_color (filter_min_capacity (min_capacity ui) df)) with
  | Ret _ => Ret tt
  | Raise e => Raise e
  | Halt => Halt
  end.
Proof.
  intros E Hne. rewrite (script_loaded w ui t df E Hne). cbn [result snd].
  rewrite present_eq.
  destruct (result (apply_color (filter_min_capacity (min_capacity ui) df)));
    reflexivity.
Qed.

(** X10.  When at least one station passes the capacity filter and no
    ratio of such a station is so large that 255 times it overflows
    binary64, the script ends with an unhandled exception exactly when
    some station that passes the filter has bikes (available plus out of
    service is not zero) and a bike utilization or an out-of-service
    ratio that is NaN or infinite. *)
Theorem script_raises_iff (w : world) (ui : inputs) (df : DataFrame) :
  result (load_station_data w) = Ret df ->
  filter_min_capacity (min_capacity ui) df <> [] ->
  (forall row,
     In row (filter_min_capacity (min_capacity ui) df) ->
     no_overflow (bike_utilization row) /\
     no_overflow (out_of_service_ratio row)) ->
  ((exists e, result (script w ui) = Raise e) <->
   exists row,
     In row (filter_min_capacity (min_capacity ui) df) /\
     total_bikes row <> 0 /\
     (is_finite (bike_utilization row) = false \/
      is_finite (out_of_service_ratio row) = false)).
Proof.
  intros Hd _ _.
  destruct (load_station_data_cases w)
    as [(t & df' & Hne & E & U) | (t & E & U)];
    rewrite E in Hd; cbn [result snd] in Hd; [|discriminate].
  injection Hd as ->.
  rewrite (script_result w ui t df E Hne).
  split.
  - intros [e He].
    destruct (apply_color_outcome (filter_min_capacity (min_capacity ui) df))
      as [[cs H] | (e' & row & H & Hin & Hr)]; rewrite H in He;
      [discriminate|].
    exists row. split; [assumption|].
    apply color_raises_iff. eauto.
  - intros (row & Hin & Hc).
    apply color_raises_iff in Hc. destruct Hc as [e He].
    destruct (apply_color_outcome (filter_min_capacity (min_capacity ui) df))
      as [[cs H] | (e' & row' & H & _ & _)]; rewrite H.
    + assert (Hall : exists cs, result (apply_color
                 (filter_min_capacity (min_capacity ui) df)) = Ret cs)
        by eauto.
      apply apply_color_all_ok with (row := row) in Hall; [|assumption].
      destruct Hall as [c Hc]. congruence.
    + eauto.
Qed.

(** X10 with the slider at 0 and a feed station that has no docks, no
    bikes and reports one free dock. *)
Lemma script_raises_iff_witness :
  (exists e, result (script (live_world 0 [raw 0 0 1]) (mk_inputs 0 false))
             = Raise e) <->
  exists row,
    In row (filter_min_capacity 0 [calculate_demand_metrics 0 (raw 0 0 1)]) /\
    total_bikes row <> 0 /\
    (is_finite (bike_utilization row) = false \/
     is_finite (out_of_service_ratio row) = false).
Proof.
  apply (script_raises_iff (live_world 0 [raw 0 0 1]) (mk_inputs 0 false)
                           [calculate_demand_metrics 0 (raw 0 0 1)]).
  - reflexivity.
  - discriminate.
  - intros row [<- | []]. split; exact I.
Defined.

(** X11.  When the script ends with an exception, the page holds the
    line that tells how many stations are shown and nothing else of the
    later stages: no map, no counts, no time of the last update, no raw
    table. *)
Theorem script_crash_page (w : world) (ui : inputs) (e : exn) :
  result (script w ui) = Raise e ->
  forall ev, In ev (trace (script w ui)) -> downstream ev = true ->
             exists n, ev = St_markdown_showing n (min_capacity ui).
Proof.
  intros He ev Hin Hd.
  destruct (load_station_data_cases w)
    as [(t & df & Hne & E & U) | (t & E & U)].
  - rewrite (script_loaded w ui t df E Hne) in He, Hin.
    cbn [trace result fst snd] in He, Hin.
    apply in_app_or in Hin. destruct Hin as [Hin | Hin].
    + rewrite forallb_forall in U. specialize (U ev Hin).
      rewrite Hd in U. discriminate.
    + rewrite present_eq in He, Hin.
      destruct (result (apply_color (filter_min_capacity (min_capacity ui) df)));
        cbn [trace result fst snd] in He, Hin; try discriminate.
      destruct Hin as [<- | []]. eauto.
  - rewrite (script_halted w ui t E) in He. discriminate.
Qed.

(** X11 with the slider at 0 and a feed station that has no docks, no
    bikes and reports one free dock: [int] raises on the NaN. *)
Lemma script_crash_page_witness :
  result (script (live_world 0 [raw 0 0 1]) (mk_inputs 0 false))
  = Raise (ValueError "cannot convert float NaN to integer") /\
  forall ev,
    In ev (trace (script (live_world 0 [raw 0 0 1]) (mk_inputs 0 false))) ->
    downstream ev = true ->
    exists n, ev = St_markdown_showing n 0.
Proof.
  split; [reflexivity|].
  apply (script_crash_page (live_world 0 [raw 0 0 1]) (mk_inputs 0 false)
                           (ValueError "cannot convert float NaN to integer")).
  reflexivity.
Defined.

(** X12.  With the warehouse table empty, the slider at 1 or more and at
    least one station of the feed passing the filter, the script runs to
    its end without an exception. *)
Theorem script_renders_live_feed (w : world) (ui : inputs) (df : DataFrame) :
  result (load_from_snowflake w) = Ret [] -> 1 <= min_capacity ui ->
  result (load_from_api w) = Ret df ->
  filter_min_capacity (min_capacity ui) df <> [] ->
  result (script w ui) = Ret tt.
Proof.
  intros Hw Ht R Hf.
  destruct (load_from_snowflake w) as [t1 o1] eqn:E1.
  destruct (load_from_api w) as [t2 o2] eqn:E2.
  cbn [result snd] in Hw, R. subst o1 o2.
  pose proof (load_station_data_eq w t1 [] t2 df E1 E2) as E.
  destruct df as [| r2 df2]; [contradiction Hf; reflexivity|].
  rewrite (script_result w ui _ _ E) by discriminate.
  assert (R : result (load_from_api w) = Ret (r2 :: df2))
    by (rewrite E2; reflexivity).
  assert (Hall : exists cs, result (apply_color
               (filter_min_capacity (min_capacity ui) (r2 :: df2))) = Ret cs).
  { apply apply_color_all_ok. intros row Hin.
    apply filter_min_capacity_In in Hin. destruct Hin as [Hin Hc].
    destruct (load_from_api_rows w _ row R Hin) as [m ->].
    cbn in Hc.
    destruct (derived_populated (timestamp_now w) m ltac:(lia))
      as (Fu & _ & Fr & _). cbv zeta in Fu, Fr.
    destruct (color_raises_iff (calculate_demand_metrics (timestamp_now w) m))
      as [Hraise _].
    destruct (get_station_color (calculate_demand_metrics (timestamp_now w) m))
      as [e | c] eqn:Ec; [|eauto].
    destruct (Hraise (ex_intro _ e eq_refl)) as [_ [H | H]]; congruence. }
  destruct Hall as [cs ->]. reflexivity.
Qed.

(** X12 with the slider at 20 and the feed with two stations of 15 and
    20 docks. *)
Lemma script_renders_live_feed_witness :
  result (script two_station_world (mk_inputs 20 false)) = Ret tt.
Proof.
  eapply (script_renders_live_feed two_station_world (mk_inputs 20 false)).
  - reflexivity.
  - cbn. lia.
  - reflexivity.
  - discriminate.
Defined.

(** ** What the page shows *)

Lemma fold_max_spec l a :
  (fold_left Z.max l a = a \/ In (fold_left Z.max l a) l) /\
  a <= fold_left Z.max l a /\
  (forall x, In x l -> x <= fold_left Z.max l a).
Proof.
  revert a. induction l as [| b l IH]; intros a.
  - cbn. repeat split; [left; reflexivity | lia | intros x []].
  - cbn [fold_left]. destruct (IH (Z.max a b)) as (H1 & H2 & H3).
    repeat split.
    + destruct H1 as [H1 | H1].
      * rewrite H1. destruct (Z.max_spec a b) as [[_ E] | [_ E]]; rewrite E.
        -- right. left. reflexivity.
        -- left. reflexivity.
      * right. right. assumption.
    + lia.
    + intros x [<- | Hx]; [lia | auto].
Qed.

Lemma max_last_reported_spec df :
  df <> [] ->
  In (max_last_reported df) (map last_reported df) /\
  (forall r, In r df -> last_reported r <= max_last_reported df).
Proof.
  intros Hne. destruct df as [| r df]; [contradiction|].
  cbn [max_last_reported map].
  destruct (fold_max_spec (map last_reported df) (last_reported r))
    as (H1 & H2 & H3).
  split.
  - destruct H1 as [H1 | H1]; [left; symmetry; assumption | right; assumption].
  - intros x [<- | Hx]; [assumption|]. apply H3. apply in_map. assumption.
Qed.

Ltac page_event He :=
  unfold page in He;
  apply in_app_or in He; destruct He as [He | He];
  [ destruct He as [He | [He | [He | [He | [He | []]]]]]; try discriminate
  | apply in_app_or in He; destruct He as [He | He];
    [ match type of He with
      | In _ (if ?b then _ else _) => destruct b eqn:?Hb
      end; [|contradiction]; destruct He as [He | []]; try discriminate
    | match type of He with
      | In _ (if ?b then _ else _) => destruct b eqn:?Hb
      end; [|contradiction]; destruct He as [He | []]; try discriminate ] ].

Lemma page_last_updated df ui color ts :
  In (St_sidebar_last_updated ts) (page df ui color) ->
  df <> [] /\ ts = max_last_reported df.
Proof.
  intros He. page_event He. injection He as <-.
  split; [|reflexivity]. destruct df; [discriminate Hb | discriminate].
Qed.

Lemma page_chart df ui color data :
  In (St_pydeck_chart data) (page df ui color) ->
  data = combine (combine (filter_min_capacity (min_capacity ui) df) color)
                 (apply_radius (filter_min_capacity (min_capacity ui) df)).
Proof. intros He. page_event He. injection He as <-. reflexivity. Qed.

Lemma page_showing df ui color n t :
  In (St_markdown_showing n t) (page df ui color) ->
  n = List.length (filter_min_capacity (min_capacity ui) df) /\
  t = min_capacity ui.
Proof. intros He. page_event He. injection He as <- <-. split; reflexivity. Qed.

Lemma page_dataframe df ui color rows :
  In (St_dataframe rows) (page df ui color) ->
  show_raw_data ui = true /\
  rows = filter_min_capacity (min_capacity ui) df.
Proof.
  intros He. page_event He. injection He as <-. split; reflexivity.
Qed.

Lemma combine_aligned {A B C} (P : A -> B -> Prop) (g : A -> C) l cs :
  Forall2 P l cs ->
  map (fun d => fst (fst d)) (combine (combine l cs) (map g l)) = l /\
  forall a c x, In (a, c, x) (combine (combine l cs) (map g l)) ->
                P a c /\ x = g a.
Proof.
  induction 1 as [| a c l cs Hac _ [IH1 IH2]].
  - split; [reflexivity | intros a c x []].
  - cbn. split; [f_equal; assumption|].
    intros a' c' x [[= <- <- <-] | Hin]; [auto | eauto].
Qed.

Lemma filter_length_le {A} (f : A -> bool) l :
  (List.length (filter f l) <= List.length l)%nat.
Proof. induction l as [| a l IH]; cbn; [lia|]. destruct (f a); cbn; lia. Qed.

(** X13.  The time shown as last update is the latest [last_reported] of
    the loaded table, before any filtering; when the table comes from
    the live feed it is the time of the fetch. *)
Theorem last_updated_shown (w : world) (ui : inputs) (ts : Z) :
  In (St_sidebar_last_updated ts) (trace (script w ui)) ->
  exists df,
    result (load_station_data w) = Ret df /\
    In ts (map last_reported df) /\
    (forall r, In r df -> last_reported r <= ts) /\
    (result (load_from_snowflake w) = Ret [] -> ts = timestamp_now w).
Proof.
  intros H.
  destruct (script_downstream w ui _ H eq_refl) as (df & color & Hd & Hp).
  apply page_last_updated in Hp. destruct Hp as [Hne ->].
  destruct (max_last_reported_spec df Hne) as [M1 M2].
  exists df. split; [assumption|]. split; [assumption|].
  split; [assumption|].
  intros Hw.
  destruct (load_from_api_returns w) as [df2 R2].
  destruct (load_from_snowflake w) as [t1 o1] eqn:E1.
  destruct (load_from_api w) as [t2 o2] eqn:E2.
  cbn [result snd] in Hw, R2. subst o1 o2.
  rewrite (load_station_data_eq w t1 [] t2 df2 E1 E2) in Hd.
  destruct df2 as [| r2 df2]; [discriminate|].
  cbn [result snd] in Hd. injection Hd as <-.
  assert (R : result (load_from_api w) = Ret (r2 :: df2))
    by (rewrite E2; reflexivity).
  apply in_map_iff in M1. destruct M1 as (r & <- & Hr).
  destruct (load_from_api_rows w _ r R Hr) as [m ->]. reflexivity.
Qed.

(** X13 at the feed with two stations fetched at time 7, with a slider
    that filters one station out. *)
Lemma last_updated_shown_witness :
  exists df,
    result (load_station_data two_station_world) = Ret df /\
    In 7 (map last_reported df) /\
    (forall r, In r df -> last_reported r <= 7) /\
    (result (load_from_snowflake two_station_world) = Ret [] ->
     7 = timestamp_now two_station_world).
Proof.
  apply (last_updated_shown two_station_world (mk_inputs 20 false) 7).
  vm_compute. intuition.
Defined.

(** X14.  The map gets one marker for every row of the filtered table,
    in the order of the table; the colour of a marker is the colour of
    its row and its radius is the radius of the row's capacity. *)
Theorem chart_markers (w : world) (ui : inputs)
        (data : list (station * list Z * Z)) :
  In (St_pydeck_chart data) (trace (script w ui)) ->
  exists df,
    result (load_station_data w) = Ret df /\
    map (fun d => fst (fst d)) data
    = filter_min_capacity (min_capacity ui) df /\
    forall row c radius,
      In (row, c, radius) data ->
      get_station_color row = inr c /\
      radius = get_station_radius (capacity row).
Proof.
  intros H.
  destruct (load_station_data_cases w)
    as [(t & df & Hne & E & U) | (t & E & U)].
  - rewrite (script_loaded w ui t df E Hne) in H. cbn [trace fst] in H.
    apply in_app_or in H. destruct H as [H | H].
    { rewrite forallb_forall in U. specialize (U _ H). discriminate. }
    rewrite present_eq in H.
    destruct (result (apply_color (filter_min_capacity (min_capacity ui) df)))
      as [color | e |] eqn:Ec; cbn [trace fst] in H;
      try (destruct H as [H | []]; discriminate).
    apply page_chart in H. subst data.
    apply apply_color_ret in Ec.
    destruct (combine_aligned _ (fun r => get_station_radius (capacity r))
                              _ _ Ec) as [A1 A2].
    exists df. rewrite E. split; [reflexivity|]. split; [exact A1 | exact A2].
  - rewrite (script_halted w ui t E) in H. cbn [trace fst] in H.
    rewrite forallb_forall in U. specialize (U _ H). discriminate.
Qed.

(** X14 at the example of the specification, loaded from the feed. *)
Lemma chart_markers_witness :
  exists df,
    result (load_station_data (live_world 0 [raw 15 10 3])) = Ret df /\
    map (fun d => fst (fst d)) [(spec_example, [204; 170; 170; 200], 8)]
    = filter_min_capacity 10 df /\
    forall row c radius,
      In (row, c, radius) [(spec_example, [204; 170; 170; 200], 8)] ->
      get_station_color row = inr c /\
      radius = get_station_radius (capacity row).
Proof.
  apply (chart_markers (live_world 0 [raw 15 10 3]) (mk_inputs 10 false)).
  vm_compute. intuition.
Defined.

(** X15.  The raw table is shown only when the box is ticked, and it
    holds the rows of the filtered table, not of the loaded one. *)
Theorem raw_table_rows (w : world) (ui : inputs) (rows : DataFrame) :
  In (St_dataframe rows) (trace (script w ui)) ->
  show_raw_data ui = true /\
  exists df, result (load_station_data w) = Ret df /\
             rows = filter_min_capacity (min_capacity ui) df /\
             (List.length rows <= List.length df)%nat.
Proof.
  intros H.
  destruct (script_downstream w ui _ H eq_refl) as (df & color & Hd & Hp).
  apply page_dataframe in Hp. destruct Hp as [Hs ->].
  split; [assumption|]. exists df. split; [assumption|].
  split; [reflexivity | apply filter_length_le].
Qed.

(** X15 at the feed with two stations of 15 and 20 docks, the slider at
    20 and the box ticked. *)
Lemma raw_table_rows_witness :
  exists rows df,
    result (load_station_data two_station_world) = Ret df /\
    rows = filter_min_capacity 20 df /\
    (List.length rows <= List.length df)%nat /\
    List.length rows = 1%nat /\ List.length df = 2%nat.
Proof.
  pose (rows := filter_min_capacity 20
      (map (calculate_demand_metrics 7)
           (inner_join
              (map info_of [raw 15 10 3;
                 {| m_station_id := "t"; m_name := "n";
                    m_lat := 0%Q; m_lon := 0%Q; m_capacity := 20;
                    m_num_bikes_available := 0;
                    m_num_docks_available := 20 |}])
              (map status_of [raw 15 10 3;
                 {| m_station_id := "t"; m_name := "n";
                    m_lat := 0%Q; m_lon := 0%Q; m_capacity := 20;
                    m_num_bikes_available := 0;
                    m_num_docks_available := 20 |}])))).
  destruct (raw_table_rows two_station_world (mk_inputs 20 true) rows)
    as (_ & df & Hd & Hr & Hl).
  { vm_compute. intuition. }
  exists rows, df. split; [assumption|]. split; [assumption|].
  split; [assumption|].
  split; [reflexivity|].
  assert (E : result (load_station_data two_station_world)
              = Ret (map (calculate_demand_metrics 7)
           (inner_join
              (map info_of [raw 15 10 3;
                 {| m_station_id := "t"; m_name := "n";
                    m_lat := 0%Q; m_lon := 0%Q; m_capacity := 20;
                    m_num_bikes_available := 0;
                    m_num_docks_available := 20 |}])
              (map status_of [raw 15 10 3;
                 {| m_station_id := "t"; m_name := "n";
                    m_lat := 0%Q; m_lon := 0%Q; m_capacity := 20;
                    m_num_bikes_available := 0;
                    m_num_docks_available := 20 |}])))) by reflexivity.
  rewrite E in Hd. injection Hd as <-. reflexivity.
Defined.

(** X16.  Filtering twice is filtering once with the larger threshold;
    so a higher threshold keeps a part of what a lower one keeps, and
    never shows more stations. *)
Theorem filter_min_capacity_compose (t t' : Z) (df : DataFrame) :
  filter_min_capacity t' (filter_min_capacity t df)
  = filter_min_capacity (Z.max t t') df /\
  (t <= t' ->
   filter_min_capacity t' (filter_min_capacity t df) = filter_min_capacity t' df /\
   (List.length (filter_min_capacity t' df)
    <= List.length (filter_min_capacity t df))%nat).
Proof.
  assert (C : filter_min_capacity t' (filter_min_capacity t df)
              = filter_min_capacity (Z.max t t') df).
  { unfold filter_min_capacity. induction df as [| r df IH]; [reflexivity|].
    cbn [filter].
    destruct (Z.leb_spec t (capacity r)), (Z.leb_spec (Z.max t t') (capacity r));
      cbn [filter];
      try destruct (Z.leb_spec t' (capacity r)); try lia;
      rewrite IH; reflexivity. }
  split; [exact C|]. intros H.
  assert (E : Z.max t t' = t') by lia.
  split; [rewrite C, E; reflexivity|].
  rewrite <- E at 1. rewrite <- C. apply filter_length_le.
Qed.

(** X16 with the thresholds 10 and 20 on stations of 4, 15 and 10
    docks. *)
Lemma filter_min_capacity_compose_witness :
  filter_min_capacity 20 (filter_min_capacity 10
    [quarter_station; spec_example; overfull_station])
  = filter_min_capacity 20 [quarter_station; spec_example; overfull_station] /\
  (List.length (filter_min_capacity 20
     [quarter_station; spec_example; overfull_station])
   <= List.length (filter_min_capacity 10
     [quarter_station; spec_example; overfull_station]))%nat.
Proof.
  destruct (filter_min_capacity_compose 10 20
              [quarter_station; spec_example; overfull_station]) as [_ H].
  apply H. lia.
Defined.

(** X17.  On a page that shows the counts, each of the three counts is
    at most the number of stations that the page says it shows, and that
    number is at most the number of rows loaded. *)
Theorem counts_bounded (w : world) (ui : inputs) (shown : nat) (t : Z)
        (label : string) (n : nat) :
  In (St_markdown_showing shown t) (trace (script w ui)) ->
  In (St_metric label n) (trace (script w ui)) ->
  (n <= shown)%nat /\ t = min_capacity ui /\
  exists df, result (load_station_data w) = Ret df /\
             shown = List.length (filter_min_capacity (min_capacity ui) df) /\
             (shown <= List.length df)%nat.
Proof.
  intros Hs Hm.
  destruct (script_downstream w ui _ Hs eq_refl) as (df & color & Hd & Hp).
  destruct (script_downstream w ui _ Hm eq_refl) as (df' & color' & Hd' & Hp').
  rewrite Hd in Hd'. injection Hd' as <-.
  apply page_showing in Hp. destruct Hp as [-> ->].
  apply page_metric in Hp'. cbv zeta in Hp'.
  split; [|split; [reflexivity|]].
  - destruct Hp' as [[_ ->] | [[_ ->] | [_ ->]]]; apply filter_length_le.
  - exists df. split; [assumption|].
    split; [reflexivity | apply filter_length_le].
Qed.

(** X17 at the feed with two stations and the slider at 20: one station
    shown, and it is full of free docks, hence empty of bikes. *)
Lemma counts_bounded_witness :
  (1 <= 1)%nat /\ 20 = 20 /\
  exists df, result (load_station_data two_station_world) = Ret df /\
             1%nat = List.length (filter_min_capacity 20 df) /\
             (1 <= List.length df)%nat.
Proof.
  apply (counts_bounded two_station_world (mk_inputs 20 false) 1 20
                        "Empty Stations" 1).
  - vm_compute. intuition.
  - vm_compute. intuition.
Defined.

(** ** More on the colour and on the derivation *)

(** X18.  Whatever the row, a colour that the function returns has four
    channels, green equal to blue, alpha 200, and a red channel of at
    most 255. *)
Theorem color_shape (row : station) (c : list Z) :
  get_station_color row = inr c ->
  exists red base, c = [red; base; base; 200] /\ red <= 255.
Proof.
  unfold get_station_color.
  destruct (num_bikes_available row + out_of_service_bikes row =? 0).
  - intros [= <-]. exists 200, 200. split; [reflexivity | lia].
  - destruct (int (int_mul 255 (bike_utilization row))) as [e | b];
      [discriminate|].
    destruct (int (int_mul 255 (out_of_service_ratio row))) as [e | rb];
      [discriminate|].
    intros [= <-]. do 2 eexists. split; [reflexivity | lia].
Qed.

(** X18 at the station with 10 docks and 20 bikes. *)
Lemma color_shape_witness :
  exists red base, [255; 510; 510; 200] = [red; base; base; 200] /\ red <= 255.
Proof. apply (color_shape overfull_station). reflexivity. Defined.

(** X19.  In a table that comes out of the derivation from int64 counts
    whose sum and difference do not wrap around: a row is counted among
    the stations with bikes out of service exactly when bikes plus free
    docks are fewer than the capacity; the bikes that the colour function
    takes as total are the capacity minus the free docks, so a row whose
    docks are all free gets the no-data gray; and bikes, free docks and
    bikes out of service add up to the capacity. *)
Theorem derived_counts (now : Z) (ms : list merged_row) (r : station) :
  Forall no_wrap ms ->
  In r (map (calculate_demand_metrics now) ms) ->
  num_bikes_available r + num_docks_available r + out_of_service_bikes r
  = capacity r /\
  total_bikes r = capacity r - num_docks_available r /\
  (In r (out_of_service (map (calculate_demand_metrics now) ms)) <->
   num_bikes_available r + num_docks_available r < capacity r) /\
  (num_docks_available r = capacity r ->
   get_station_color r = inr [200; 200; 200; 200]).
Proof.
  intros _ Hin. pose proof Hin as Hin'.
  apply in_map_iff in Hin'. destruct Hin' as (m & <- & _).
  split; [cbn; lia|]. split; [unfold total_bikes; cbn; lia|]. split.
  - unfold out_of_service. rewrite filter_In, Z.ltb_lt. cbn.
    split; [intros [_ H]; lia | intros H; split; [exact Hin | lia]].
  - intros H. apply color_no_data. unfold total_bikes. cbn in H |- *. lia.
Qed.

(** X19 at the feed station with 20 docks, all free. *)
Lemma derived_counts_witness :
  get_station_color (calculate_demand_metrics 7
    {| m_station_id := "t"; m_name := "n"; m_lat := 0%Q; m_lon := 0%Q;
       m_capacity := 20; m_num_bikes_available := 0;
       m_num_docks_available := 20 |})
  = inr [200; 200; 200; 200].
Proof.
  eapply (derived_counts 7
            [{| m_station_id := "t"; m_name := "n"; m_lat := 0%Q; m_lon := 0%Q;
                m_capacity := 20; m_num_bikes_available := 0;
                m_num_docks_available := 20 |}]).
  - constructor; [unfold no_wrap, int64; cbn; lia | constructor].
  - left. reflexivity.
  - reflexivity.
Defined.

Lemma truncates_mono z z' q q' :
  truncates z q -> truncates z' q' -> (q <= q')%Q -> z <= z'.
Proof.
  intros [P N] [P' N'] Hle.
  destruct (Qlt_le_dec q 0) as [Hq | Hq].
  - apply Qlt_le_weak in Hq. destruct (N Hq) as [A B].
    destruct (Qlt_le_dec q' 0) as [Hq' | Hq'].
    + apply Qlt_le_weak in Hq'. destruct (N' Hq') as [A' B'].
      assert (H : (inject_Z (z - 1) < inject_Z z')%Q).
      { apply Qlt_le_trans with q; [exact A|].
        apply Qle_trans with q'; assumption. }
      rewrite <- Zlt_Qlt in H. lia.
    + destruct (P' Hq') as [A' B'].
      assert (H : (inject_Z (z - 1) < inject_Z 0)%Q)
        by (apply Qlt_le_trans with q; assumption).
      assert (H' : (inject_Z 0 < inject_Z (z' + 1))%Q)
        by (apply Qle_lt_trans with q'; assumption).
      rewrite <- Zlt_Qlt in H, H'. lia.
  - assert (Hq' : (0 <= q')%Q) by (apply Qle_trans with q; assumption).
    destruct (P Hq) as [A B], (P' Hq') as [A' B'].
    assert (H : (inject_Z z < inject_Z (z' + 1))%Q).
    { apply Qle_lt_trans with q; [exact A|].
      apply Qle_lt_trans with q'; assumption. }
    rewrite <- Zlt_Qlt in H. lia.
Qed.

(** X20.  Among stations with bikes, a higher bike utilization never
    gives a darker base: the green and the blue channel do not decrease
    when the utilization grows. *)
Theorem color_base_monotone (r1 r2 : station) (u1 u2 : Q) (c1 c2 : list Z) :
  total_bikes r1 <> 0 -> total_bikes r2 <> 0 ->
  bike_utilization r1 = Finite u1 -> bike_utilization r2 = Finite u2 ->
  (u1 <= u2)%Q ->
  get_station_color r1 = inr c1 -> get_station_color r2 = inr c2 ->
  nth 1 c1 0 <= nth 1 c2 0 /\ nth 2 c1 0 <= nth 2 c2 0.
Proof.
  intros T1 T2 U1 U2 Hle C1 C2.
  destruct (color_raises_iff r1) as [_ K1].
  destruct (color_raises_iff r2) as [_ K2].
  destruct (out_of_service_ratio r1) as [o1 | | |] eqn:O1;
    try (destruct K1 as [e K1]; [split; [assumption | right; reflexivity]
                                | congruence]).
  destruct (out_of_service_ratio r2) as [o2 | | |] eqn:O2;
    try (destruct K2 as [e K2]; [split; [assumption | right; reflexivity]
                                | congruence]).
  destruct (color_finite r1 u1 o1 T1 U1 O1) as (b1 & rb1 & Tb1 & _ & E1).
  destruct (color_finite r2 u2 o2 T2 U2 O2) as (b2 & rb2 & Tb2 & _ & E2).
  rewrite E1 in C1. rewrite E2 in C2.
  injection C1 as <-. injection C2 as <-. cbn [nth].
  assert (H : b1 <= b2).
  { eapply truncates_mono; [exact Tb1 | exact Tb2 |].
    apply Qmult_le_l; [reflexivity | assumption]. }
  split; assumption.
Qed.

(** X20 at the quarter-used station (utilization 1/4, green 63) and the
    example of the specification (utilization 2/3, green 170). *)
Lemma color_base_monotone_witness :
  nth 1 [63; 63; 63; 200] 0 <= nth 1 [204; 170; 170; 200] 0 /\
  nth 2 [63; 63; 63; 200] 0 <= nth 2 [204; 170; 170; 200] 0.
Proof.
  apply (color_base_monotone quarter_station spec_example (1 # 4) (2 # 3));
    try reflexivity; try discriminate.
Defined.
